(** * Build Catalog Service (app.py): a shallow embedding and its properties

    The Flask application reads two JSON documents (devices.json and
    builds.json) on every request and answers five GET routes.  The routes
    are embedded here as functions over the parsed documents; a Python
    exception is a [Raise] result, a dictionary read from JSON is a finite
    map, a dictionary built by a handler is an insertion-ordered list of
    items.  A Python string is the string of its UTF-8 bytes: splitting,
    searching, replacing and comparing read the bytes, which agrees with
    Python on code points, and the date patterns decode them. *)

From Stdlib Require Import ZArith Ascii String List Lia Bool DecimalString.
From stdpp Require Import base option list numbers strings gmap fin_maps.

Local Open Scope Z_scope.

(** ** Exceptions and results *)

Inductive exn : Type :=
  | KeyError | IndexError | TypeError | ValueError | AttributeError
  | ParserError.

Inductive result (A : Type) : Type :=
  | Ok (a : A)
  | Raise (e : exn).
Arguments Ok {A} a.
Arguments Raise {A} e.

Global Instance result_ret : MRet result := fun A a => Ok a.
Global Instance result_bind : MBind result := fun A B f m =>
  match m with Ok a => f a | Raise e => Raise e end.

(** A [for] loop whose body may raise: the first exception ends the loop. *)
Fixpoint for_each {A S : Type} (body : S -> A -> result S) (xs : list A)
    (s : S) : result S :=
  match xs with
  | [] => Ok s
  | x :: xs' => s' ← body s x; for_each body xs' s'
  end.

(** A list comprehension whose element expression may raise. *)
Fixpoint comprehension {A B : Type} (f : A -> result B) (xs : list A)
    : result (list B) :=
  match xs with
  | [] => Ok []
  | x :: xs' => y ← f x; ys ← comprehension f xs'; Ok (y :: ys)
  end.

(** ** JSON values and Python's view of them *)

(** The fields the routes read are JSON scalars; numbers are integers (the
    manifest's [size]). *)
Inductive value : Type :=
  | VNone
  | VBool (b : bool)
  | VNum (n : Z)
  | VStr (s : string).

Global Instance value_eq_dec : EqDecision value.
Proof. solve_decision. Defined.

(** A JSON object of the two documents: a device record or a build record. *)
Abbreviation record := (gmap string value).

(** [d[k]] on a record. *)
Definition getitem (d : record) (k : string) : result value :=
  match d !! k with
  | Some v => Ok v
  | None => Raise KeyError
  end.

(** [d.get(k)] on a record. *)
Definition dict_get (d : record) (k : string) : value :=
  match d !! k with
  | Some v => v
  | None => VNone
  end.

(** Python's [==] on scalars: [True == 1] and [False == 0]. *)
Definition py_eqb (a b : value) : bool :=
  match a, b with
  | VNone, VNone => true
  | VBool x, VBool y => Bool.eqb x y
  | VBool x, VNum n | VNum n, VBool x => n =? (if x then 1 else 0)
  | VNum n, VNum m => n =? m
  | VStr s, VStr t => String.eqb s t
  | _, _ => false
  end.

(** Truth value of a scalar, as tested by [if x:]. *)
Definition truthy (v : value) : bool :=
  match v with
  | VNone => false
  | VBool b => b
  | VNum n => negb (n =? 0)
  | VStr s => negb (String.eqb s "")
  end.

(** [str(v)], which is what ["{}".format(v)] inserts. *)
Definition py_str (v : value) : string :=
  match v with
  | VNone => "None"
  | VBool true => "True"
  | VBool false => "False"
  | VNum n => NilZero.string_of_int (Z.to_int n)
  | VStr s => s
  end.

(** [x in xs] for a list. *)
Definition py_in (x : value) (xs : list value) : bool :=
  existsb (fun y => py_eqb x y) xs.

(** ** Insertion-ordered dictionaries built by the handlers *)

Section pydict.
Context {K V : Type} (key_eqb : K -> K -> bool).

Fixpoint dict_lookup (k : K) (d : list (K * V)) : option V :=
  match d with
  | [] => None
  | (k', v) :: d' => if key_eqb k' k then Some v else dict_lookup k d'
  end.

(** [k in d] *)
Definition dict_contains (k : K) (d : list (K * V)) : bool :=
  match dict_lookup k d with Some _ => true | None => false end.

(** [d[k] = v]: an existing key keeps its position, a new one goes last. *)
Fixpoint dict_setitem (k : K) (v : V) (d : list (K * V)) : list (K * V) :=
  match d with
  | [] => [(k, v)]
  | (k', v') :: d' =>
      if key_eqb k' k then (k', v) :: d'
      else (k', v') :: dict_setitem k v d'
  end.
End pydict.

(** ** String methods *)

Module Str.

(** [s.split(sep)] for a one-character separator. *)
Fixpoint split (sep : ascii) (s : string) : list string :=
  match s with
  | EmptyString => [EmptyString]
  | String c s' =>
      if Ascii.eqb c sep then EmptyString :: split sep s'
      else match split sep s' with
           | f :: fs => String c f :: fs
           | [] => [String c EmptyString]
           end
  end.

(** [s.rfind(c)] for a one-character needle: the highest index, or -1. *)
Fixpoint rfind (c : ascii) (s : string) : Z :=
  match s with
  | EmptyString => -1
  | String a s' =>
      let r := rfind c s' in
      if 0 <=? r then r + 1 else if Ascii.eqb a c then 0 else -1
  end.

(** [s[:n]] and [s[n:]] for [0 <= n]. *)
Fixpoint take (n : nat) (s : string) : string :=
  match n, s with
  | S n', String c s' => String c (take n' s')
  | _, _ => EmptyString
  end.

Fixpoint drop (n : nat) (s : string) : string :=
  match n, s with
  | S n', String _ s' => drop n' s'
  | _, _ => s
  end.

(** [s.replace(old, new)] for a non-empty [old]: occurrences are replaced
    left to right without overlap.  [skip] counts the characters of a
    match still to be passed over. *)
Fixpoint replace_from (old new : string) (skip : nat) (s : string)
    : string :=
  match s with
  | EmptyString => EmptyString
  | String c s' =>
      match skip with
      | S k => replace_from old new k s'
      | O =>
          if String.prefix old s
          then new +:+ replace_from old new (Nat.pred (String.length old)) s'
          else String c (replace_from old new O s')
      end
  end.

Definition replace (old new s : string) : string :=
  replace_from old new O s.

(** [s.endswith(c)] and [s.startswith(c)] for one character. *)
Fixpoint endswith (c : ascii) (s : string) : bool :=
  match s with
  | EmptyString => false
  | String a EmptyString => Ascii.eqb a c
  | String _ s' => endswith c s'
  end.

Definition startswith (c : ascii) (s : string) : bool :=
  match s with
  | String a _ => Ascii.eqb a c
  | EmptyString => false
  end.

(** [s.count(c)] for one character. *)
Fixpoint count (c : ascii) (s : string) : nat :=
  match s with
  | EmptyString => O
  | String a s' => (if Ascii.eqb a c then 1 else 0)%nat + count c s'
  end.

(** [a > b] on strings: lexicographic on character codes. *)
Definition gtb (a b : string) : bool := String.ltb b a.

End Str.

(** [xs[i]] on a list. *)
Definition list_getitem {A : Type} (xs : list A) (i : nat) : result A :=
  match xs !! i with
  | Some x => Ok x
  | None => Raise IndexError
  end.

(** ** os.path *)

(** The scan of [genericpath._splitext] over the characters between the last
    separator and the last dot: [true] when one of them is not a dot. *)
Fixpoint splitext_scan (p : string) (filenameIndex : nat) (steps : nat)
    : bool :=
  match steps with
  | O => false
  | S steps' =>
      match String.get filenameIndex p with
      | Some "."%char => splitext_scan p (S filenameIndex) steps'
      | _ => true
      end
  end.

(** [os.path.splitext(p)] (posixpath). *)
Definition splitext (p : string) : string * string :=
  let sepIndex := Str.rfind "/" p in
  let dotIndex := Str.rfind "." p in
  if sepIndex <? dotIndex then
    if splitext_scan p (Z.to_nat (sepIndex + 1))
         (Z.to_nat (dotIndex - (sepIndex + 1)))
    then (Str.take (Z.to_nat dotIndex) p, Str.drop (Z.to_nat dotIndex) p)
    else (p, EmptyString)
  else (p, EmptyString).

(** [os.path.join(a, *p)] (posixpath). *)
Definition join (a : string) (p : list string) : string :=
  fold_left
    (fun path b =>
       if Str.startswith "/" b then b
       else if String.eqb path "" || Str.endswith "/" path then path +:+ b
       else path +:+ "/" +:+ b)
    p a.


(** ** datetime: [strptime(s, '%Y%m%d')] and [strftime(d, '%A, %d %B - %Y')] *)

Module Datetime.

Record date : Type := Date { year : Z; month : Z; day : Z }.

(** A character of the class [0-9], as the classes [0-2], [0-1] and [1-9]
    of the patterns below read it. *)
Definition ascii_digit (c : ascii) : option Z := Z.of_nat <$> Ascii.is_nat c.

Definition digit_in (lo hi : Z) (c : ascii) : option Z :=
  match ascii_digit c with
  | Some n => if (lo <=? n) && (n <=? hi) then Some n else None
  | None => None
  end.

(** A string holds the UTF-8 bytes of the text.  [byte] is the value of one
    of them, [continuation] reads the six low bits of a byte [10xxxxxx] and
    [code_point] the first code point of a string, in its shortest
    encoding only. *)
Definition byte (c : ascii) : Z := Z.of_N (N_of_ascii c).

Definition continuation (s : string) : option (Z * string) :=
  match s with
  | String c rest =>
      let b := byte c in
      if (128 <=? b) && (b <? 192) then Some (b - 128, rest) else None
  | EmptyString => None
  end.

Definition in_range (lo hi : Z) (r : Z * string) : option (Z * string) :=
  if (lo <=? r.1) && (r.1 <=? hi) then Some r else None.

Definition code_point (s : string) : option (Z * string) :=
  match s with
  | String c rest =>
      let b := byte c in
      if b <? 128 then Some (b, rest)
      else if (192 <=? b) && (b <? 224) then
        '(x1, r1) ← continuation rest;
        in_range 128 2047 ((b - 192) * 64 + x1, r1)
      else if (224 <=? b) && (b <? 240) then
        '(x1, r1) ← continuation rest;
        '(x2, r2) ← continuation r1;
        in_range 2048 65535 (((b - 224) * 64 + x1) * 64 + x2, r2)
      else if (240 <=? b) && (b <? 248) then
        '(x1, r1) ← continuation rest;
        '(x2, r2) ← continuation r1;
        '(x3, r3) ← continuation r2;
        in_range 65536 1114111
          ((((b - 240) * 64 + x1) * 64 + x2) * 64 + x3, r3)
      else None
  | EmptyString => None
  end.

(** The decimal digits of Unicode 14.0 (general category Nd, as CPython
    3.11 has them) come in runs of ten, from the digit zero of a script to
    its digit nine; these are the code points of the zeros. *)
Definition decimal_zeros : list Z :=
  [48; 1632; 1776; 1984; 2406; 2534; 2662; 2790; 2918; 3046; 3174; 3302;
   3430; 3558; 3664; 3792; 3872; 4160; 4240; 6112; 6160; 6470; 6608; 6784;
   6800; 6992; 7088; 7232; 7248; 42528; 43216; 43264; 43472; 43504; 43600;
   44016; 65296; 66720; 68912; 69734; 69872; 69942; 70096; 70384; 70736;
   70864; 71248; 71360; 71472; 71904; 72016; 72784; 73040; 73120; 92768;
   92864; 93008; 120782; 120792; 120802; 120812; 120822; 123200; 123632;
   125264; 130032].

(** The value of a decimal digit, as [int] reads it. *)
Definition decimal_value (cp : Z) : option Z :=
  match find (fun z => (z <=? cp) && (cp <? z + 10)) decimal_zeros with
  | Some z => Some (cp - z)
  | None => None
  end.

(** The class [\d] of a pattern on text: one decimal digit of any script. *)
Definition re_decimal (s : string) : option (Z * string) :=
  match code_point s with
  | Some (cp, rest) =>
      match decimal_value cp with
      | Some v => Some (v, rest)
      | None => None
      end
  | None => None
  end.

(** The directive [%Y] is [\d\d\d\d]. *)
Definition re_Y (s : string) : option (Z * string) :=
  match re_decimal s with
  | Some (x, s1) =>
      match re_decimal s1 with
      | Some (y, s2) =>
          match re_decimal s2 with
          | Some (z, s3) =>
              match re_decimal s3 with
              | Some (w, s4) => Some (1000 * x + 100 * y + 10 * z + w, s4)
              | None => None
              end
          | None => None
          end
      | None => None
      end
  | None => None
  end.

(** The directive [%m] is the alternation [1[0-2]|0[1-9]|[1-9]]; the
    matches of a prefix of [s] are listed in the order the regular
    expression engine tries them. *)
Definition re_m (s : string) : list (Z * string) :=
  match s with
  | String a rest =>
      match rest with
      | String b rest' =>
          (if Ascii.eqb a "1" then
             match digit_in 0 2 b with
             | Some n => [(10 + n, rest')] | None => [] end
           else []) ++
          (if Ascii.eqb a "0" then
             match digit_in 1 9 b with
             | Some n => [(n, rest')] | None => [] end
           else [])
      | EmptyString => []
      end ++
      match digit_in 1 9 a with Some n => [(n, rest)] | None => [] end
  | EmptyString => []
  end.

(** The directive [%d] is [3[0-1]|[1-2]\d|0[1-9]|[1-9]| [1-9]]. *)
Definition re_d (s : string) : list (Z * string) :=
  match s with
  | String a rest =>
      match rest with
      | String b rest' =>
          if Ascii.eqb a "3" then
            match digit_in 0 1 b with
            | Some n => [(30 + n, rest')] | None => [] end
          else []
      | EmptyString => []
      end ++
      match digit_in 1 2 a, re_decimal rest with
      | Some x, Some (y, rest') => [(10 * x + y, rest')]
      | _, _ => []
      end ++
      match rest with
      | String b rest' =>
          if Ascii.eqb a "0" then
            match digit_in 1 9 b with
            | Some n => [(n, rest')] | None => [] end
          else []
      | EmptyString => []
      end ++
      match digit_in 1 9 a with Some n => [(n, rest)] | None => [] end ++
      match rest with
      | String b rest' =>
          if Ascii.eqb a " " then
            match digit_in 1 9 b with
            | Some n => [(n, rest')] | None => [] end
          else []
      | EmptyString => []
      end
  | EmptyString => []
  end.

(** The first match of [%m%d] at the start of [s]: the engine takes the
    first alternative of [%m] after which [%d] matches, and the first
    alternative of [%d] there. *)
Definition re_md (s : string) : option (Z * Z * string) :=
  head (flat_map (fun '(m, s2) =>
          map (fun '(d, s3) => (m, d, s3)) (re_d s2)) (re_m s)).

(** The first match of the pattern for ['%Y%m%d'] at the start of [s],
    with the text it leaves over. *)
Definition re_match (s : string) : option (Z * Z * Z * string) :=
  match re_Y s with
  | Some (y, s1) =>
      match re_md s1 with
      | Some (m, d, rest) => Some (y, m, d, rest)
      | None => None
      end
  | None => None
  end.

Definition is_leap (y : Z) : bool :=
  (y mod 4 =? 0) && (negb (y mod 100 =? 0) || (y mod 400 =? 0)).

Definition days_in_month (y m : Z) : Z :=
  if m =? 2 then (if is_leap y then 29 else 28)
  else if (m =? 4) || (m =? 6) || (m =? 9) || (m =? 11) then 30
  else 31.

(** The check of the [date] constructor. *)
Definition valid (y m d : Z) : bool :=
  (1 <=? y) && (y <=? 9999) && (1 <=? m) && (m <=? 12) &&
  (1 <=? d) && (d <=? days_in_month y m).

(** [datetime.strptime(s, '%Y%m%d')]: no match, text left over after the
    match and an impossible date all raise ValueError. *)
Definition strptime (s : string) : result date :=
  match re_match s with
  | Some (y, m, d, rest) =>
      if negb (String.eqb rest "") then Raise ValueError
      else if valid y m d then Ok (Date y m d)
      else Raise ValueError
  | None => Raise ValueError
  end.

Definition days_before_year (y : Z) : Z :=
  let y' := y - 1 in y' * 365 + y' / 4 - y' / 100 + y' / 400.

Fixpoint days_before_month_from (y : Z) (m : nat) : Z :=
  match m with
  | O => 0
  | S m' => days_before_month_from y m' + days_in_month y (Z.of_nat m)
  end.

(** Days of the year before the first day of month [m]. *)
Definition days_before_month (y m : Z) : Z :=
  days_before_month_from y (Z.to_nat (m - 1)).

(** [toordinal()]: 1 January of year 1 is day 1. *)
Definition toordinal (d : date) : Z :=
  days_before_year (year d) + days_before_month (year d) (month d) + day d.

(** [weekday()]: Monday is 0. *)
Definition weekday (d : date) : Z := (toordinal d + 6) mod 7.

Definition day_name (w : Z) : string :=
  nth (Z.to_nat w)
    ["Monday"; "Tuesday"; "Wednesday"; "Thursday"; "Friday"; "Saturday";
     "Sunday"] "".

Definition month_name (m : Z) : string :=
  nth (Z.to_nat (m - 1))
    ["January"; "February"; "March"; "April"; "May"; "June"; "July";
     "August"; "September"; "October"; "November"; "December"] "".

Definition digit_char (n : Z) : ascii := ascii_of_nat (48 + Z.to_nat n).

(** Two and four decimal digits, zero padded. *)
Definition pad2 (n : Z) : string :=
  String (digit_char (n / 10 mod 10)) (String (digit_char (n mod 10)) "").

Definition pad4 (n : Z) : string :=
  String (digit_char (n / 1000 mod 10))
    (String (digit_char (n / 100 mod 10)) (pad2 n)).

(** [datetime.strftime(d, '%A, %d %B - %Y')] in the C locale; [%Y] is the
    year in decimal as the C library prints it. *)
Definition strftime (d : date) : string :=
  day_name (weekday d) +:+ ", " +:+ pad2 (day d) +:+ " " +:+
  month_name (month d) +:+ " - " +:+ py_str (VNum (year d)).

End Datetime.

(** ** The two documents *)

(** devices.json: an array of device records. *)
Abbreviation devices_json := (list record).

(** builds.json: an object from codename to the array of that device's
    build records, in the order of the document (its keys are distinct). *)
Abbreviation builds_json := (list (string * list record)).

Definition ALLOWED_BUILDTYPES : list value := [VStr "official"; VStr "gapps"].

(** ** Responses of a view function *)

Inductive response : Type :=
  (** [render_template("latest.html", devices=.., build_dates=..)] *)
  | LatestPage (devices : list (value * value))
               (build_dates : list (string * string))
  (** [render_template("device.html", available_files=.., device=..,
      model=.., xda=.., maintainer=..)] *)
  | DevicePage (available_files : list (string * value)) (device : string)
               (model xda maintainer : value)
  (** a plain string *)
  | Text (body : string)
  (** [jsonify({'response': data})] *)
  | Jsonify (response : list record)
  (** the function ends without a [return] *)
  | NoReturn.

(** ** Loading *)

Definition get_devices (data : devices_json)
    : result (list (value * value)) :=
  for_each
    (fun acc d =>
       k ← getitem d "codename";
       v ← getitem d "device";
       Ok (dict_setitem py_eqb k v acc))
    data [].

(** [for device in builds for build in builds[device]]: [builds[device]] is
    the value stored under the key being visited. *)
Definition get_zips (builds : builds_json) : result (list value) :=
  comprehension (fun build => getitem build "filename")
    (flat_map snd builds).

(** Lines 58-62 of [get_latest]: the scan of the device's builds. *)
Fixpoint get_latest_scan (builds : list record) (romtype : string)
    : result record :=
  match builds with
  | [] => Ok ∅
  | build :: rest =>
      t ← getitem build "type";
      if py_eqb t (VStr romtype) then Ok build
      else get_latest_scan rest romtype
  end.

Definition get_latest (devices : devices_json) (manifest : builds_json)
    (device romtype : string) : result record :=
  devs ← get_devices devices;
  if negb (dict_contains py_eqb (VStr device) devs) then Ok ∅
  else
    match dict_lookup String.eqb device manifest with
    | None => Raise KeyError
    | Some builds => get_latest_scan builds romtype
    end.

(** ** GET / *)

(** Lines 79-85: one iteration over [zips]. *)
Definition show_files_step
    (st : list (value * value) * list (string * string)) (zip : value)
    : result (list (value * value) * list (string * string)) :=
  let '(devices, build_dates) := st in
  match zip with
  | VStr zip =>
      let zip := fst (splitext zip) in
      device ← list_getitem (Str.split "-" zip) 3;
      let devices :=
        if negb (dict_contains py_eqb (VStr device) devices)
        then dict_setitem py_eqb (VStr device) (VStr device) devices
        else devices in
      build_date ← list_getitem (Str.split "-" zip) 4;
      let build_dates :=
        match dict_lookup String.eqb device build_dates with
        | None => dict_setitem String.eqb device build_date build_dates
        | Some latest =>
            if Str.gtb build_date latest
            then dict_setitem String.eqb device build_date build_dates
            else build_dates
        end in
      Ok (devices, build_dates)
  | _ => Raise TypeError
  end.

(** Lines 87-90: every retained date is parsed and printed again. *)
Definition format_dates (build_dates : list (string * string))
    : result (list (string * string)) :=
  for_each
    (fun acc '(date, _) =>
       match dict_lookup String.eqb date acc with
       | Some s =>
           d ← Datetime.strptime s;
           Ok (dict_setitem String.eqb date (Datetime.strftime d) acc)
       | None => Raise KeyError
       end)
    build_dates build_dates.

Definition show_files (devices : devices_json) (manifest : builds_json)
    : result response :=
  zips ← get_zips manifest;
  devices ← get_devices devices;
  '(devices, build_dates) ← for_each show_files_step zips (devices, []);
  build_dates ← format_dates build_dates;
  Ok (LatestPage devices build_dates).

(** ** GET /<target_device> *)

(** Lines 108-118: one iteration over the device's builds. *)
Definition latest_device_step (available_files : list (string * value))
    (build : record) : result (list (string * value)) :=
  let buildtype := dict_get build "type" in
  if py_in buildtype ALLOWED_BUILDTYPES then
    match buildtype with
    | VStr buildtype =>
        let available_files :=
          dict_setitem String.eqb buildtype (dict_get build "filename")
            available_files in
        available_files ←
          (if truthy (dict_get build "fastboot_images") then
             match dict_get build "filename" with
             | VStr filename =>
                 Ok (dict_setitem String.eqb (buildtype +:+ "-img")
                       (VStr (Str.replace ".zip" "-img.zip" filename))
                       available_files)
             | _ => Raise AttributeError
             end
           else Ok available_files);
        (if truthy (dict_get build "boot_image") then
           match dict_get build "filename" with
           | VStr filename =>
               Ok (dict_setitem String.eqb (buildtype +:+ "-boot")
                     (VStr (Str.replace ".zip" "-boot.img" filename))
                     available_files)
           | _ => Raise AttributeError
           end
         else Ok available_files)
    | _ => Raise TypeError
    end
  else Ok available_files.

(** Lines 122-131: the [for ... else] over devices.json, giving
    [(xda_url, model, maintainers)]. *)
Fixpoint find_device (json_data : devices_json) (target_device : string)
    : result (value * value * value) :=
  match json_data with
  | [] => Ok (VNone, VStr target_device, VNone)
  | device :: rest =>
      codename ← getitem device "codename";
      if py_eqb codename (VStr target_device)
      then Ok (dict_get device "xda", dict_get device "device",
               dict_get device "maintainer")
      else find_device rest target_device
  end.

Definition latest_device (devices : devices_json) (manifest : builds_json)
    (target_device : string) : result response :=
  match dict_lookup String.eqb target_device manifest with
  | None =>
      Ok (Text ("There isn't any build for " +:+ target_device +:+
                " available here!"))
  | Some builds =>
      available_files ← for_each latest_device_step builds [];
      '(xda_url, model, maintainers) ← find_device devices target_device;
      match available_files with
      | _ :: _ =>
          Ok (DevicePage available_files target_device model xda_url
                maintainers)
      | [] => Ok NoReturn
      end
  end.

(** ** GET /<device>/<romtype> *)

Section ota.
(** [os.environ.get("DOWNLOAD_BASE_URL", "https://get.aosip.dev")] *)
Variable DOWNLOAD_BASE_URL : string.
(** [arrow.get(x).timestamp], the date library's parser. *)
Variable arrow_timestamp : value -> result Z.

Definition ota (devices : devices_json) (manifest : builds_json)
    (device romtype : string) : result response :=
  rom ← get_latest devices manifest device romtype;
  if bool_decide (rom = ∅) then Ok (Jsonify [])
  else
    id ← getitem rom "sha256";
    filepath ← getitem rom "filepath";
    filename ← getitem rom "filename";
    type ← getitem rom "type";
    date ← getitem rom "date";
    datetime ← arrow_timestamp date;
    version ← getitem rom "version";
    filename' ← getitem rom "filename";
    size ← getitem rom "size";
    Ok (Jsonify
          [ list_to_map
              [ ("id", id);
                ("url", VStr (DOWNLOAD_BASE_URL +:+ py_str filepath +:+
                              py_str filename));
                ("romtype", type);
                ("datetime", VNum datetime);
                ("version", version);
                ("filename", filename');
                ("size", size) ] ]).
End ota.

(** ** GET /changelog and GET /changelog/<device> *)

Record http_response : Type :=
  HttpResponse { status_code : Z; text : string }.

(** A handler that talks to the upstream host: it extends the log of the
    URLs requested so far. *)
Definition http (A : Type) : Type := list string -> A * list string.

Global Instance http_ret : MRet http := fun A a log => (a, log).
Global Instance http_bind : MBind http := fun A B f m log =>
  let '(a, log') := m log in f a log'.

Definition newline : string := String "010" "".

Section changelog.
(** What the upstream host answers to a GET of a URL. *)
Variable upstream : string -> http_response.

Definition requests_get (url : string) : http http_response :=
  fun log => (upstream url, log ++ [url]).

Definition changelog_base_url : string :=
  "https://raw.githubusercontent.com/AOSiP-Devices/Updater-Stuff/master".

Definition changelog : http response :=
  let changelog_url :=
    "https://raw.githubusercontent.com/AOSiP-Devices/Updater-Stuff/master/changelog" in
  response ← requests_get changelog_url;
  if negb (status_code response =? 200)
  then mret (Text "Fetching changelog failed!")
  else mret (Text (Str.replace newline "<br>" (text response))).

Definition changelog_device (device : string) : http response :=
  let changelog_url := join changelog_base_url ["changelog"] in
  let device_changelog_url :=
    join changelog_base_url [device; "changelog"] in
  changelog ← (r ← requests_get changelog_url; mret (text r));
  response ← requests_get device_changelog_url;
  if negb (status_code response =? 200)
  then mret (Text ("Fetching changelog for " +:+ device +:+ " failed!"))
  else
    let changelog := changelog +:+ newline +:+ text response in
    mret (Text (Str.replace newline "<br>" changelog)).
End changelog.

(** * Vocabulary of the statements *)

Import Datetime.

(** A build that carries a type other than [romtype]. *)
Definition other_type (romtype : string) (b : record) : Prop :=
  exists t, b !! "type" = Some t /\ t <> VStr romtype.

(** The data model's build record as far as this route needs it: the
    filename is a string. *)
Definition has_filename (b : record) : Prop :=
  exists f, b !! "filename" = Some (VStr f).

(** The keys an iteration can write for a build of type [t]. *)
Definition keys_of (t : string) : list string :=
  [t; t +:+ "-img"; t +:+ "-boot"].

(** A build whose iteration leaves the entry under [k] alone. *)
Definition untouched (k : string) (b : record) : Prop :=
  py_in (dict_get b "type") ALLOWED_BUILDTYPES = false \/
  exists t, dict_get b "type" = VStr t /\ k ∉ keys_of t.

(** A digit character is read back as its digit and is none of the
    characters the routes look for. *)
Definition digit_ok (n : Z) : bool :=
  bool_decide (ascii_digit (digit_char n) = Some n) &&
  (byte (digit_char n) <? 128) &&
  bool_decide (decimal_value (byte (digit_char n)) = Some n) &&
  negb (Ascii.eqb (digit_char n) "-") &&
  negb (Ascii.eqb (digit_char n) ".") &&
  negb (Ascii.eqb (digit_char n) "/").

(** Every two-digit month followed by a two-digit day is read back. *)
Definition md_read (m d : Z) : bool :=
  bool_decide (re_md (pad2 m +:+ pad2 d) = Some (m, d, "")).

(** The same for every day after a given month. *)
Definition md_row (m : Z) : bool := forallb (md_read m) (seqZ 1 31).

(** From 1000 on the year printed in decimal is the four-digit year. *)
Definition year_printed (y : Z) : bool :=
  String.eqb (py_str (VNum y)) (pad4 y).

(** The codename and the date the index route takes from a filename, when
    the name has the five fields. *)
Definition fields_of (zip : string) : option (string * string) :=
  let fields := Str.split "-" (fst (splitext zip)) in
  match fields !! 3%nat, fields !! 4%nat with
  | Some device, Some build_date => Some (device, build_date)
  | _, _ => None
  end.

(** The update of [build_dates] in one iteration. *)
Definition keep_latest (device build_date : string)
    (build_dates : list (string * string)) : list (string * string) :=
  match dict_lookup String.eqb device build_dates with
  | None => dict_setitem String.eqb device build_date build_dates
  | Some latest =>
      if Str.gtb build_date latest
      then dict_setitem String.eqb device build_date build_dates
      else build_dates
  end.

(** The update of [devices] in one iteration. *)
Definition add_device (device : string) (devices : list (value * value))
    : list (value * value) :=
  if negb (dict_contains py_eqb (VStr device) devices)
  then dict_setitem py_eqb (VStr device) (VStr device) devices
  else devices.

(** A manifest filename: three prefixes, the codename, the date, whatever
    follows the date, and the [.zip] extension. *)
Definition manifest_filename (p1 p2 p3 codename date rest : string) : string :=
  p1 +:+ "-" +:+ p2 +:+ "-" +:+ p3 +:+ "-" +:+ codename +:+ "-" +:+
  date +:+ rest +:+ ".zip".

(** The eight digits of a date. *)
Definition yyyymmdd (y m d : Z) : string := pad4 y +:+ pad2 m +:+ pad2 d.

(** The dates of the filenames that carry the codename [c]. *)
Definition dates_of (c : string) (names : list string) : list string :=
  omap (fun zip =>
          match fields_of zip with
          | Some (device, build_date) =>
              if String.eqb device c then Some build_date else None
          | None => None
          end) names.

(** [o] is the greatest of the dates [cands], if there is any. *)
Definition is_latest (cands : list string) (o : option string) : Prop :=
  match o with
  | None => cands = []
  | Some latest => latest ∈ cands /\ Forall (fun d => String.le d latest) cands
  end.

(** The order of Python on strings, written out: a proper prefix comes
    first, and otherwise the characters at the first position where the
    two strings differ decide. *)
Inductive lex_lt : string -> string -> Prop :=
  | lex_lt_prefix (c : ascii) (s : string) : lex_lt "" (String c s)
  | lex_lt_head (c1 c2 : ascii) (s1 s2 : string) :
      (N_of_ascii c1 < N_of_ascii c2)%N ->
      lex_lt (String c1 s1) (String c2 s2)
  | lex_lt_tail (c : ascii) (s1 s2 : string) :
      lex_lt s1 s2 -> lex_lt (String c s1) (String c s2).

(** What the second loop makes of a date. *)
Definition reformat (s : string) : string :=
  match strptime s with
  | Ok day => strftime day
  | Raise _ => s
  end.

(** The text with each newline character turned into the four characters
    [<br>], and every other character kept. *)
Fixpoint newlines_to_br (s : string) : string :=
  match s with
  | EmptyString => EmptyString
  | String c s' =>
      if Ascii.eqb c "010" then "<br>" +:+ newlines_to_br s'
      else String c (newlines_to_br s')
  end.

(** ** Vocabulary of the further properties *)

(** The key Python compares and hashes a scalar by: [True] and [False] are
    the numbers 1 and 0. *)
Definition py_key (v : value) : value :=
  match v with
  | VBool b => VNum (if b then 1 else 0)
  | _ => v
  end.

(** A device record with the two keys [get_devices] reads. *)
Definition complete_device (d : record) : Prop :=
  is_Some (d !! "codename") /\ is_Some (d !! "device").

(** A device record whose codename is not [c]. *)
Definition other_codename (c : string) (d : record) : Prop :=
  exists k, d !! "codename" = Some k /\ k <> VStr c.

(** The keys a device page can list. *)
Definition page_keys : list string :=
  ["official"; "official-img"; "official-boot";
   "gapps"; "gapps-img"; "gapps-boot"].

(** The invariant of the map the device page collects. *)
Definition page_map_ok (files : list (string * value)) : Prop :=
  NoDup files.*1 /\ Forall (fun k => k ∈ page_keys) files.*1.

(** The name the index page shows for a codename: the directory's, or the
    codename itself. *)
Definition shown_name (devs : list (value * value)) (c : string) : value :=
  match dict_lookup py_eqb (VStr c) devs with
  | Some name => name
  | None => VStr c
  end.

(** [d] is a date of the codename [c] than which none of its dates in
    [names] compares greater. *)
Definition greatest_date (names : list string) (c d : string) : Prop :=
  (exists zip, zip ∈ names /\ fields_of zip = Some (c, d)) /\
  forall zip' d', zip' ∈ names -> fields_of zip' = Some (c, d') ->
                  Str.gtb d' d = false.

(** [old in s] *)
Fixpoint occurs (old s : string) : bool :=
  String.prefix old s ||
  match s with
  | String _ s' => occurs old s'
  | EmptyString => false
  end.

(** ** Sample documents *)

(** A parser to stand for the date library in the examples below: an ISO
    calendar date is read as midnight UTC of that day. *)
Definition iso_date_timestamp (v : value) : result Z :=
  match v with
  | VStr s =>
      match Str.split "-" s with
      | [y; m; d] =>
          day ← strptime (y +:+ m +:+ d);
          Ok ((toordinal day - 719163) * 86400)
      | _ => Raise ParserError
      end
  | _ => Raise TypeError
  end.

Definition sample_build (type filename date sha : string) (flags : bool)
    : record :=
  list_to_map
    ([("filename", VStr filename); ("type", VStr type);
      ("version", VStr "10"); ("date", VStr date); ("sha256", VStr sha);
      ("filepath", VStr "/beryllium/"); ("size", VNum 1073741824)] ++
     if flags
     then [("fastboot_images", VBool true); ("boot_image", VBool true)]
     else []).

Definition gapps_a : record :=
  sample_build "gapps" "AOSiP-10-Gapps-beryllium-20200601.zip"
    "2020-06-01" "5f1c" false.
Definition official_a : record :=
  sample_build "official" "AOSiP-10-Official-beryllium-20200415.zip"
    "2020-04-15" "a3e0" true.
Definition official_b : record :=
  sample_build "official" "AOSiP-10-Official-beryllium-20200501.zip"
    "2020-05-01" "77b2" false.
Definition gapps_b : record :=
  sample_build "gapps" "AOSiP-10-Gapps-beryllium-20200520.zip"
    "2020-05-20" "c9d4" false.
Definition beta_build : record :=
  sample_build "beta" "AOSiP-10-Beta-legacy-20190101.zip"
    "2019-01-01" "0b6a" false.
Definition short_build : record :=
  sample_build "official" "AOSiP-10-beryllium.zip" "2020-05-01" "e1e1" false.

(** builds.json: the first official build of beryllium is not its newest,
    and legacy has no build of an allow-listed type. *)
Definition sample_builds : builds_json :=
  [("beryllium", [gapps_a; official_a; official_b; gapps_b]);
   ("legacy", [beta_build])].

(** builds.json whose newest build stands between two older ones, and
    its filenames. *)
Definition unordered_builds : builds_json :=
  [("beryllium", [official_a; gapps_a; official_b])].
Definition unordered_names : list string :=
  ["AOSiP-10-Official-beryllium-20200415.zip";
   "AOSiP-10-Gapps-beryllium-20200601.zip";
   "AOSiP-10-Official-beryllium-20200501.zip"].

(** An upstream host that has the changelog of beryllium only: every
    other request, the one for the global changelog too, is answered by
    an error page. *)
Definition partial_upstream (url : string) : http_response :=
  if String.eqb url
       "https://raw.githubusercontent.com/AOSiP-Devices/Updater-Stuff/master/beryllium/changelog"
  then HttpResponse 200
         ("- kernel" +:+ String "010" "- camera" +:+ String "010" "")
  else HttpResponse 404 "404: Not Found".

(** builds.json with a single build, and with a misnamed one. *)
Definition single_build : builds_json := [("beryllium", [official_a])].
Definition misnamed_builds : builds_json :=
  [("beryllium", [official_a; short_build])].

(** devices.json: ghost has no entry in the manifest. *)
Definition sample_devices : devices_json :=
  [list_to_map
     [("codename", VStr "beryllium"); ("device", VStr "Poco F1");
      ("xda", VStr "https://forum.xda-developers.com/poco-f1");
      ("maintainer", VStr "someone")];
   list_to_map [("codename", VStr "ghost"); ("device", VStr "Moto X")]].

Definition sample_directory : list (value * value) :=
  [(VStr "beryllium", VStr "Poco F1"); (VStr "ghost", VStr "Moto X")].

Definition sample_names : list string :=
  ["AOSiP-10-Gapps-beryllium-20200601.zip";
   "AOSiP-10-Official-beryllium-20200415.zip";
   "AOSiP-10-Official-beryllium-20200501.zip";
   "AOSiP-10-Gapps-beryllium-20200520.zip";
   "AOSiP-10-Beta-legacy-20190101.zip"].

(** ** Further sample documents *)

Definition beryllium_device : record :=
  list_to_map
    [("codename", VStr "beryllium"); ("device", VStr "Poco F1");
     ("xda", VStr "https://forum.xda-developers.com/poco-f1");
     ("maintainer", VStr "someone")].
Definition ghost_device : record :=
  list_to_map [("codename", VStr "ghost"); ("device", VStr "Moto X")].
Definition renamed_device : record :=
  list_to_map [("codename", VStr "beryllium"); ("device", VStr "Pocophone F1")].
Definition nameless_device : record :=
  list_to_map [("device", VStr "Nameless")].

(** devices.json with a codename twice, and with a record without
    codename before the record of beryllium. *)
Definition duplicate_devices : devices_json :=
  [ghost_device; beryllium_device; renamed_device].
Definition shadowed_devices : devices_json :=
  [ghost_device; nameless_device; beryllium_device].

Definition flagged_nameless : record :=
  list_to_map [("type", VStr "official"); ("fastboot_images", VBool true)].
Definition plain_nameless : record :=
  list_to_map [("type", VStr "official")].
Definition untyped_build : record :=
  list_to_map [("filename", VStr "AOSiP-10-Official-beryllium-20200301.zip")].
(** Builds whose date is no date, the one without sha256 and the other
    without version, and a build without size. *)
Definition unhashed_soon : record :=
  list_to_map
    [("filename", VStr "AOSiP-10-Official-beryllium-20200301.zip");
     ("type", VStr "official"); ("filepath", VStr "/beryllium/");
     ("date", VStr "soon"); ("version", VStr "10");
     ("size", VNum 1073741824)].
Definition unversioned_soon : record :=
  list_to_map
    [("filename", VStr "AOSiP-10-Official-beryllium-20200301.zip");
     ("type", VStr "official"); ("sha256", VStr "44aa");
     ("filepath", VStr "/beryllium/"); ("date", VStr "soon");
     ("size", VNum 1073741824)].
Definition unsized_build : record :=
  list_to_map
    [("filename", VStr "AOSiP-10-Official-beryllium-20200301.zip");
     ("type", VStr "official"); ("sha256", VStr "44aa");
     ("filepath", VStr "/beryllium/"); ("date", VStr "2020-03-01");
     ("version", VStr "10")].
Definition numbered_build : record :=
  list_to_map [("filename", VNum 7); ("type", VStr "official")].
Definition undated_build : record :=
  sample_build "official" "AOSiP-10-Official-beryllium-0000.zip"
    "2020-01-01" "d00d" false.
Definition misdated_build : record :=
  sample_build "official" "AOSiP-10-Official-beryllium-2020xx01.zip"
    "2020-01-01" "d00d" false.
(** A build whose date has its year in Arabic-Indic digits. *)
Definition indic_build : record :=
  sample_build "official" "AOSiP-10-Official-beryllium-٢٠٢٠0501.zip"
    "2020-05-01" "d00d" false.
Definition upper_build : record :=
  sample_build "official" "AOSiP-10-Official-beryllium-20200415.ZIP"
    "2020-04-15" "a3e0" true.

(** The record the OTA route answers with for the official build of
    beryllium in [sample_builds]. *)
Definition sample_ota_record : record :=
  list_to_map
    [("id", VStr "a3e0");
     ("url",
      VStr "https://get.aosip.dev/beryllium/AOSiP-10-Official-beryllium-20200415.zip");
     ("romtype", VStr "official"); ("datetime", VNum 1586908800);
     ("version", VStr "10");
     ("filename", VStr "AOSiP-10-Official-beryllium-20200415.zip");
     ("size", VNum 1073741824)].

(** An upstream host that has every changelog. *)
Definition sample_upstream (url : string) : http_response :=
  HttpResponse 200 ("Changes:" +:+ newline +:+ "- " +:+ url).

(** * Properties *)

(** ** The library functions on a few inputs *)

Example split_keeps_empty_fields :
  Str.split "-" "AOSiP-10--beryllium" = ["AOSiP"; "10"; ""; "beryllium"].
Proof. reflexivity. Qed.

Example splitext_last_dot_only :
  splitext "AOSiP-9.0-Official-beryllium-20200501.zip"
    = ("AOSiP-9.0-Official-beryllium-20200501", ".zip").
Proof. reflexivity. Qed.

Example splitext_dot_in_directory :
  splitext "builds.d/AOSiP" = ("builds.d/AOSiP", "").
Proof. reflexivity. Qed.

Example splitext_leading_dots : splitext "..zip" = ("..zip", "").
Proof. reflexivity. Qed.

Example replace_every_occurrence :
  Str.replace ".zip" "-img.zip" "a.zip.zip" = "a-img.zip-img.zip".
Proof. reflexivity. Qed.

Example join_device_changelog :
  join changelog_base_url ["beryllium"; "changelog"] =
    "https://raw.githubusercontent.com/AOSiP-Devices/Updater-Stuff/master/beryllium/changelog".
Proof. reflexivity. Qed.

Example strptime_one_digit_day : strptime "2020115" = Ok (Date 2020 11 5).
Proof. reflexivity. Qed.

Example strptime_text_left_over : strptime "20201301" = Raise ValueError.
Proof. reflexivity. Qed.

Example strptime_no_such_day : strptime "20230229" = Raise ValueError.
Proof. reflexivity. Qed.

Example strptime_digits_of_any_script :
  strptime "٢٠٢٠0501" = Ok (Date 2020 5 1).
Proof. reflexivity. Qed.

Example strptime_day_second_digit_of_any_script :
  strptime "2020051١" = Ok (Date 2020 5 11).
Proof. reflexivity. Qed.

Example strptime_month_digits_ascii_only :
  strptime "2020٠501" = Raise ValueError.
Proof. reflexivity. Qed.

Example code_point_two_bytes : code_point "٢0" = Some (1634, "0").
Proof. reflexivity. Qed.

Example strftime_friday :
  strftime (Date 2020 5 1) = "Friday, 01 May - 2020".
Proof. reflexivity. Qed.

Example strftime_year_not_padded :
  strftime (Date 999 1 1) = "Tuesday, 01 January - 999".
Proof. reflexivity. Qed.

(** ** Results *)

Lemma bind_Ok {A B : Type} (a : A) (f : A -> result B) : (Ok a ≫= f) = f a.
Proof. reflexivity. Qed.

Lemma bind_Raise {A B : Type} (e : exn) (f : A -> result B) :
  (Raise e ≫= f) = Raise e.
Proof. reflexivity. Qed.

Lemma getitem_Some (d : record) (k : string) (v : value) :
  d !! k = Some v -> getitem d k = Ok v.
Proof. intros H. unfold getitem. now rewrite H. Qed.

Lemma dict_get_Some (d : record) (k : string) (v : value) :
  d !! k = Some v -> dict_get d k = v.
Proof. intros H. unfold dict_get. now rewrite H. Qed.

Ltac run :=
  repeat first
    [ rewrite bind_Ok
    | rewrite bind_Raise
    | erewrite getitem_Some by eassumption ].

Lemma for_each_cons {A S : Type} (body : S -> A -> result S)
    (x : A) (xs : list A) (s : S) :
  for_each body (x :: xs) s = (s' ← body s x; for_each body xs s').
Proof. reflexivity. Qed.

Lemma for_each_app {A S : Type} (body : S -> A -> result S)
    (xs ys : list A) (s : S) :
  for_each body (xs ++ ys) s = (s' ← for_each body xs s; for_each body ys s').
Proof.
  revert s. induction xs as [|x xs IH]; intros s; simpl; [reflexivity|].
  destruct (body s x) as [s'|e]; run; [apply IH | reflexivity].
Qed.

(** ** Python equality against a string *)

Lemma py_eqb_str (v : value) (s : string) :
  py_eqb v (VStr s) = true <-> v = VStr s.
Proof.
  destruct v as [|b|n|t]; simpl; split; intros H; try discriminate;
    try (inversion H; subst; apply String.eqb_refl).
  apply String.eqb_eq in H. now subst.
Qed.

Lemma py_eqb_str_false (v : value) (s : string) :
  v <> VStr s -> py_eqb v (VStr s) = false.
Proof.
  intros H. destruct (py_eqb v (VStr s)) eqn:E; [|reflexivity].
  apply py_eqb_str in E. contradiction.
Qed.

(** ** The OTA route *)

Lemma get_latest_scan_none (romtype : string) (builds : list record) :
  Forall (other_type romtype) builds ->
  get_latest_scan builds romtype = Ok ∅.
Proof.
  induction 1 as [|b bs (t & Ht & Hne) _ IH]; simpl; [reflexivity|].
  run. now rewrite py_eqb_str_false.
Qed.

Lemma get_latest_scan_first (romtype : string) (pre post : list record)
    (b : record) :
  Forall (other_type romtype) pre ->
  b !! "type" = Some (VStr romtype) ->
  get_latest_scan (pre ++ b :: post) romtype = Ok b.
Proof.
  intros Hpre Hb. induction Hpre as [|b' bs (t & Ht & Hne) _ IH]; simpl.
  - run. simpl. now rewrite String.eqb_refl.
  - run. now rewrite py_eqb_str_false.
Qed.

Section ota_properties.
Variable DOWNLOAD_BASE_URL : string.
Variable arrow_timestamp : value -> result Z.

(** C1: a device of the directory whose build list has a build of type
    [romtype] gets a one-element response made from the first such build
    in manifest order: id is its sha256, url is the base URL, the filepath
    and the filename put together as they are, romtype its type, datetime
    the parsed date, and version, filename and size are copied. *)
Theorem ota_first_match (devices : devices_json) (manifest : builds_json)
    (device romtype : string) (devs : list (value * value))
    (pre post : list record) (b : record)
    (sha date version size : value) (filepath filename : string)
    (timestamp : Z) :
  get_devices devices = Ok devs ->
  dict_contains py_eqb (VStr device) devs = true ->
  dict_lookup String.eqb device manifest = Some (pre ++ b :: post) ->
  Forall (other_type romtype) pre ->
  b !! "type" = Some (VStr romtype) ->
  b !! "sha256" = Some sha ->
  b !! "filepath" = Some (VStr filepath) ->
  b !! "filename" = Some (VStr filename) ->
  b !! "date" = Some date ->
  arrow_timestamp date = Ok timestamp ->
  b !! "version" = Some version ->
  b !! "size" = Some size ->
  exists r : record,
    ota DOWNLOAD_BASE_URL arrow_timestamp devices manifest device romtype
      = Ok (Jsonify [r]) /\
    r !! "id" = Some sha /\
    r !! "url" =
      Some (VStr (DOWNLOAD_BASE_URL +:+ filepath +:+ filename)) /\
    r !! "romtype" = Some (VStr romtype) /\
    r !! "datetime" = Some (VNum timestamp) /\
    r !! "version" = Some version /\
    r !! "filename" = Some (VStr filename) /\
    r !! "size" = Some size /\
    dom r = list_to_set
      ["id"; "url"; "romtype"; "datetime"; "version"; "filename"; "size"].
Proof.
  intros Hdevs Hin Hman Hpre Htype Hsha Hpath Hname Hdate Hts Hver Hsize.
  eexists. split.
  - unfold ota, get_latest. rewrite Hdevs. run.
    rewrite Hin. simpl. rewrite Hman.
    rewrite (get_latest_scan_first _ _ _ _ Hpre Htype). run.
    rewrite bool_decide_eq_false_2.
    2:{ intros ->. rewrite lookup_empty in Htype. discriminate. }
    run. rewrite Hts. run. reflexivity.
  - repeat split; reflexivity.
Qed.

(** C2: a device outside the directory, or one whose build list has no
    build of type [romtype], gets the empty response. *)
Theorem ota_no_match (devices : devices_json) (manifest : builds_json)
    (device romtype : string) (devs : list (value * value)) :
  get_devices devices = Ok devs ->
  dict_contains py_eqb (VStr device) devs = false \/
  (exists builds,
      dict_lookup String.eqb device manifest = Some builds /\
      Forall (other_type romtype) builds) ->
  ota DOWNLOAD_BASE_URL arrow_timestamp devices manifest device romtype
    = Ok (Jsonify []).
Proof.
  intros Hdevs Hcase. unfold ota, get_latest. rewrite Hdevs. run.
  destruct (dict_contains py_eqb (VStr device) devs) eqn:Hin; simpl.
  - destruct Hcase as [?|(builds & Hman & Hnone)]; [discriminate|].
    rewrite Hman, (get_latest_scan_none _ _ Hnone). reflexivity.
  - reflexivity.
Qed.

(** C3: a codename of the directory that is not a key of the manifest
    makes the lookup into the manifest raise KeyError; the route does not
    answer with the empty response. *)
Theorem ota_missing_manifest_key (devices : devices_json)
    (manifest : builds_json) (device romtype : string)
    (devs : list (value * value)) :
  get_devices devices = Ok devs ->
  dict_contains py_eqb (VStr device) devs = true ->
  dict_lookup String.eqb device manifest = None ->
  ota DOWNLOAD_BASE_URL arrow_timestamp devices manifest device romtype
    = Raise KeyError /\
  ota DOWNLOAD_BASE_URL arrow_timestamp devices manifest device romtype
    <> Ok (Jsonify []).
Proof.
  intros Hdevs Hin Hman.
  assert (ota DOWNLOAD_BASE_URL arrow_timestamp devices manifest device
            romtype = Raise KeyError) as E.
  { unfold ota, get_latest. rewrite Hdevs. run. rewrite Hin. simpl.
    now rewrite Hman. }
  split; [exact E|]. rewrite E. discriminate.
Qed.
End ota_properties.

(** ** Dictionaries keyed by strings *)

Lemma lookup_setitem_eq {V : Type} (k : string) (v : V)
    (d : list (string * V)) :
  dict_lookup String.eqb k (dict_setitem String.eqb k v d) = Some v.
Proof.
  induction d as [|[k' v'] d IH]; simpl.
  - now rewrite String.eqb_refl.
  - destruct (String.eqb k' k) eqn:E; simpl; rewrite E; [reflexivity|exact IH].
Qed.

Lemma lookup_setitem_ne {V : Type} (k k' : string) (v : V)
    (d : list (string * V)) :
  k <> k' ->
  dict_lookup String.eqb k' (dict_setitem String.eqb k v d)
    = dict_lookup String.eqb k' d.
Proof.
  intros Hne. induction d as [|[k0 v0] d IH]; simpl.
  - apply String.eqb_neq in Hne. now rewrite Hne.
  - destruct (String.eqb k0 k) eqn:E; simpl.
    + apply String.eqb_eq in E. subst k0.
      apply String.eqb_neq in Hne. now rewrite Hne.
    + now rewrite IH.
Qed.

Lemma setitem_keeps {V : Type} (k k' : string) (v : V)
    (d : list (string * V)) :
  is_Some (dict_lookup String.eqb k d) ->
  is_Some (dict_lookup String.eqb k (dict_setitem String.eqb k' v d)).
Proof.
  intros H. destruct (decide (k' = k)) as [E|E].
  - subst. rewrite lookup_setitem_eq. eexists; reflexivity.
  - now rewrite lookup_setitem_ne.
Qed.

(** ** The device page *)

Lemma allowed_type (v : value) :
  py_in v ALLOWED_BUILDTYPES = true <->
  v = VStr "official" \/ v = VStr "gapps".
Proof.
  unfold py_in, ALLOWED_BUILDTYPES. simpl. rewrite !orb_true_iff.
  rewrite !py_eqb_str. intuition discriminate.
Qed.

(** What one iteration does for a build of an allow-listed type whose
    filename is a string. *)
Lemma latest_device_step_allowed (files : list (string * value))
    (b : record) (t f : string) :
  dict_get b "type" = VStr t ->
  py_in (VStr t) ALLOWED_BUILDTYPES = true ->
  dict_get b "filename" = VStr f ->
  latest_device_step files b =
    Ok (let files1 := dict_setitem String.eqb t (VStr f) files in
        let files2 :=
          if truthy (dict_get b "fastboot_images")
          then dict_setitem String.eqb (t +:+ "-img")
                 (VStr (Str.replace ".zip" "-img.zip" f)) files1
          else files1 in
        if truthy (dict_get b "boot_image")
        then dict_setitem String.eqb (t +:+ "-boot")
               (VStr (Str.replace ".zip" "-boot.img" f)) files2
        else files2).
Proof.
  intros Ht Hin Hf. unfold latest_device_step. rewrite Ht, Hin, Hf.
  destruct (truthy (dict_get b "fastboot_images")),
    (truthy (dict_get b "boot_image")); reflexivity.
Qed.

Lemma latest_device_step_skip (files : list (string * value)) (b : record) :
  py_in (dict_get b "type") ALLOWED_BUILDTYPES = false ->
  latest_device_step files b = Ok files.
Proof. intros H. unfold latest_device_step. now rewrite H. Qed.

Lemma latest_device_step_cases (files : list (string * value)) (b : record) :
  has_filename b ->
  exists files',
    latest_device_step files b = Ok files' /\
    (forall k, is_Some (dict_lookup String.eqb k files) ->
               is_Some (dict_lookup String.eqb k files')) /\
    (forall k t, dict_get b "type" = VStr t -> k ∉ keys_of t ->
               dict_lookup String.eqb k files'
                 = dict_lookup String.eqb k files) /\
    (py_in (dict_get b "type") ALLOWED_BUILDTYPES = false ->
     files' = files).
Proof.
  intros [f Hf].
  destruct (py_in (dict_get b "type") ALLOWED_BUILDTYPES) eqn:Hin.
  - assert (exists t, dict_get b "type" = VStr t) as [t Ht].
    { apply allowed_type in Hin as [->| ->]; eauto. }
    rewrite Ht in Hin.
    rewrite (latest_device_step_allowed files b t f Ht Hin
               (dict_get_Some _ _ _ Hf)).
    eexists. split; [reflexivity|]. cbv zeta. split; [|split].
    + intros k Hk.
      repeat match goal with
             | |- context [if ?c then _ else _] => destruct c
             end;
        repeat apply setitem_keeps; exact Hk.
    + intros k t' Ht' Hk. rewrite Ht in Ht'. injection Ht' as <-.
      unfold keys_of in Hk.
      assert (t <> k /\ t +:+ "-img" <> k /\ t +:+ "-boot" <> k)
        as (H1 & H2 & H3).
      { repeat split; intros <-; apply Hk; set_solver. }
      repeat match goal with
             | |- context [if ?c then _ else _] => destruct c
             end;
        rewrite ?(lookup_setitem_ne _ _ _ _ H3),
          ?(lookup_setitem_ne _ _ _ _ H2), ?(lookup_setitem_ne _ _ _ _ H1);
        reflexivity.
    + discriminate.
  - rewrite (latest_device_step_skip _ _ Hin). eexists.
    split; [reflexivity|]. split; [auto|]. split; [|reflexivity].
    intros. reflexivity.
Qed.

Lemma latest_device_loop (builds : list record)
    (files : list (string * value)) :
  Forall has_filename builds ->
  exists files',
    for_each latest_device_step builds files = Ok files' /\
    (forall k, is_Some (dict_lookup String.eqb k files) ->
               is_Some (dict_lookup String.eqb k files')) /\
    (forall k, Forall (untouched k) builds ->
               dict_lookup String.eqb k files'
                 = dict_lookup String.eqb k files).
Proof.
  intros Hall. revert files.
  induction Hall as [|b bs Hb _ IH]; intros files; simpl.
  - exists files. auto.
  - destruct (latest_device_step_cases files b Hb)
      as (files1 & -> & Hkeep & Hframe & Hskip).
    destruct (IH files1) as (files' & E' & Hkeep' & Hframe').
    exists files'. split; [run; exact E'|]. split; [auto|].
    intros k Hk. apply Forall_cons in Hk as [Hb' Hbs].
    rewrite (Hframe' k Hbs).
    destruct Hb' as [Hno|(t & Ht & Hnot)].
    + now rewrite (Hskip Hno).
    + eauto.
Qed.

Lemma latest_device_loop_skip (builds : list record)
    (files : list (string * value)) :
  Forall (fun b => py_in (dict_get b "type") ALLOWED_BUILDTYPES = false)
    builds ->
  for_each latest_device_step builds files = Ok files.
Proof.
  induction 1 as [|b bs Hb _ IH]; simpl; [reflexivity|].
  rewrite (latest_device_step_skip _ _ Hb). exact IH.
Qed.

(** The three entries right after the iteration for a build of an
    allow-listed type. *)
Lemma latest_device_step_entries (files : list (string * value))
    (b : record) (t f : string) :
  dict_get b "type" = VStr t ->
  py_in (VStr t) ALLOWED_BUILDTYPES = true ->
  dict_get b "filename" = VStr f ->
  exists files',
    latest_device_step files b = Ok files' /\
    dict_lookup String.eqb t files' = Some (VStr f) /\
    (truthy (dict_get b "fastboot_images") = true ->
     dict_lookup String.eqb (t +:+ "-img") files'
       = Some (VStr (Str.replace ".zip" "-img.zip" f))) /\
    (truthy (dict_get b "boot_image") = true ->
     dict_lookup String.eqb (t +:+ "-boot") files'
       = Some (VStr (Str.replace ".zip" "-boot.img" f))).
Proof.
  intros Ht Hin Hf.
  rewrite (latest_device_step_allowed files b t f Ht Hin Hf).
  eexists. split; [reflexivity|]. cbv zeta.
  assert (t +:+ "-img" <> t /\ t +:+ "-boot" <> t /\
          t +:+ "-boot" <> t +:+ "-img") as (H1 & H2 & H3).
  { apply allowed_type in Hin as [E|E]; injection E as ->;
      repeat split; discriminate. }
  destruct (truthy (dict_get b "fastboot_images")),
    (truthy (dict_get b "boot_image"));
    repeat split; intros; try discriminate;
    rewrite ?lookup_setitem_eq, ?(lookup_setitem_ne _ _ _ _ H3),
      ?lookup_setitem_eq, ?(lookup_setitem_ne _ _ _ _ H2),
      ?(lookup_setitem_ne _ _ _ _ H1), ?lookup_setitem_eq; reflexivity.
Qed.

(** C4: for a device of the manifest, the iteration for a build of an
    allow-listed type stores its filename under the type, the name with
    [.zip] replaced by [-img.zip] under type + "-img" when fastboot_images
    is set, and the name with [.zip] replaced by [-boot.img] under
    type + "-boot" when boot_image is set; the rendered page has these keys.
    When that build is the device's only one, of type "official" with both
    flags set, the page's map is exactly the three entries official,
    official-img and official-boot. *)
Theorem latest_device_records (devices : devices_json)
    (manifest : builds_json) (target_device : string)
    (pre post : list record) (b : record) (t f : string)
    (xda model maintainer : value) :
  dict_lookup String.eqb target_device manifest = Some (pre ++ b :: post) ->
  Forall has_filename pre -> Forall has_filename post ->
  b !! "type" = Some (VStr t) ->
  py_in (VStr t) ALLOWED_BUILDTYPES = true ->
  b !! "filename" = Some (VStr f) ->
  find_device devices target_device = Ok (xda, model, maintainer) ->
  let img := VStr (Str.replace ".zip" "-img.zip" f) in
  let boot := VStr (Str.replace ".zip" "-boot.img" f) in
  (exists files1,
      for_each latest_device_step (pre ++ [b]) [] = Ok files1 /\
      dict_lookup String.eqb t files1 = Some (VStr f) /\
      (truthy (dict_get b "fastboot_images") = true ->
       dict_lookup String.eqb (t +:+ "-img") files1 = Some img) /\
      (truthy (dict_get b "boot_image") = true ->
       dict_lookup String.eqb (t +:+ "-boot") files1 = Some boot)) /\
  (exists files,
      latest_device devices manifest target_device
        = Ok (DevicePage files target_device model xda maintainer) /\
      is_Some (dict_lookup String.eqb t files) /\
      (truthy (dict_get b "fastboot_images") = true ->
       is_Some (dict_lookup String.eqb (t +:+ "-img") files)) /\
      (truthy (dict_get b "boot_image") = true ->
       is_Some (dict_lookup String.eqb (t +:+ "-boot") files))) /\
  (pre = [] -> post = [] -> t = "official" ->
   truthy (dict_get b "fastboot_images") = true ->
   truthy (dict_get b "boot_image") = true ->
   latest_device devices manifest target_device
     = Ok (DevicePage
             [("official", VStr f); ("official-img", img);
              ("official-boot", boot)]
             target_device model xda maintainer)).
Proof.
  intros Hman Hpre Hpost Ht Hin Hf Hdev img boot.
  apply dict_get_Some in Ht, Hf.
  destruct (latest_device_loop pre [] Hpre) as (files0 & E0 & _ & _).
  destruct (latest_device_step_entries files0 b t f Ht Hin Hf)
    as (files1 & E1 & Lt & Limg & Lboot).
  destruct (latest_device_loop post files1 Hpost)
    as (files & E & Hkeep & _).
  assert (for_each latest_device_step (pre ++ [b]) [] = Ok files1) as Eb.
  { rewrite for_each_app, E0. run. simpl. rewrite E1. reflexivity. }
  assert (for_each latest_device_step (pre ++ b :: post) [] = Ok files)
    as Eall.
  { change (b :: post) with ([b] ++ post).
    rewrite app_assoc, for_each_app, Eb. run. exact E. }
  split; [|split].
  - exists files1. auto.
  - exists files. split.
    + unfold latest_device. rewrite Hman, Eall. run. rewrite Hdev. run.
      destruct files as [|kv files]; [|reflexivity].
      destruct (Hkeep t) as [? ?]; [rewrite Lt; eauto|discriminate].
    + repeat split; intros; apply Hkeep;
        rewrite ?Lt, ?Limg, ?Lboot by assumption; eauto.
  - intros -> -> -> Hfb Hbt.
    unfold latest_device. rewrite Hman. simpl.
    rewrite (latest_device_step_allowed [] b "official" f Ht Hin Hf).
    rewrite Hfb, Hbt. run. rewrite Hdev. reflexivity.
Qed.

(** C5 (amended): for a device of the manifest none of whose builds has an
    allow-listed type, the device page is not rendered: the render is
    guarded by a non-empty file map.  The "no build available" text is not
    returned either. *)
Theorem latest_device_no_allowed (devices : devices_json)
    (manifest : builds_json) (target_device : string)
    (builds : list record) :
  dict_lookup String.eqb target_device manifest = Some builds ->
  Forall (fun b => py_in (dict_get b "type") ALLOWED_BUILDTYPES = false)
    builds ->
  (forall files device model xda maintainer,
      latest_device devices manifest target_device
        <> Ok (DevicePage files device model xda maintainer)) /\
  (forall body,
      latest_device devices manifest target_device <> Ok (Text body)).
Proof.
  intros Hman Hnone. unfold latest_device.
  rewrite Hman, (latest_device_loop_skip _ _ Hnone). run.
  destruct (find_device devices target_device) as [[[xda model] mt]|e];
    split; intros; discriminate.
Qed.

Lemma untouched_other_type (t : string) (b : record) :
  py_in (VStr t) ALLOWED_BUILDTYPES = true ->
  dict_get b "type" <> VStr t ->
  untouched t b.
Proof.
  intros Ht Hne. unfold untouched.
  destruct (py_in (dict_get b "type") ALLOWED_BUILDTYPES) eqn:Hin;
    [right|left; reflexivity].
  apply allowed_type in Ht. apply allowed_type in Hin.
  destruct Hin as [E|E]; rewrite E in *;
    (eexists; split; [reflexivity|]);
    destruct Ht as [Et|Et]; injection Et as ->;
    try contradiction;
    intros Hk; cbv in Hk;
    repeat (apply elem_of_cons in Hk as [Hk|Hk]; [discriminate|]);
    now apply elem_of_nil in Hk.
Qed.

(** C10: when several builds of a device share an allow-listed type, the
    page's map holds under that type the filename of the last of them in
    manifest order, whereas [get_latest], which serves the OTA route,
    returns the first of them. *)
Theorem latest_device_last_wins (devices : devices_json)
    (manifest : builds_json) (target_device : string)
    (pre post : list record) (b : record) (t : string)
    (xda model maintainer : value) :
  dict_lookup String.eqb target_device manifest = Some (pre ++ b :: post) ->
  Forall has_filename (pre ++ b :: post) ->
  b !! "type" = Some (VStr t) ->
  py_in (VStr t) ALLOWED_BUILDTYPES = true ->
  Forall (fun b' => dict_get b' "type" <> VStr t) post ->
  find_device devices target_device = Ok (xda, model, maintainer) ->
  (exists files,
      latest_device devices manifest target_device
        = Ok (DevicePage files target_device model xda maintainer) /\
      dict_lookup String.eqb t files = Some (dict_get b "filename")) /\
  (forall devs pre1 first post1,
      get_devices devices = Ok devs ->
      dict_contains py_eqb (VStr target_device) devs = true ->
      pre ++ b :: post = pre1 ++ first :: post1 ->
      Forall (other_type t) pre1 ->
      first !! "type" = Some (VStr t) ->
      get_latest devices manifest target_device t = Ok first).
Proof.
  intros Hman Hall Ht Hin Hpost Hdev. split.
  - apply Forall_app in Hall as [Hpre Hbp].
    apply Forall_cons in Hbp as [[f Hf] Hpostf].
    apply dict_get_Some in Ht. pose proof (dict_get_Some _ _ _ Hf) as Hf'.
    destruct (latest_device_loop pre [] Hpre) as (files0 & E0 & _ & _).
    destruct (latest_device_step_entries files0 b t f Ht Hin Hf')
      as (files1 & E1 & Lt & _).
    destruct (latest_device_loop post files1 Hpostf)
      as (files & E & _ & Hframe).
    assert (dict_lookup String.eqb t files = Some (VStr f)) as Hlast.
    { rewrite Hframe; [exact Lt|].
      eapply Forall_impl; [exact Hpost|].
      intros b' Hb'. now apply untouched_other_type. }
    exists files. split; [|now rewrite Hf'].
    unfold latest_device. rewrite Hman, for_each_app, E0. run.
    simpl. rewrite E1. run. rewrite E. run. rewrite Hdev. run.
    destruct files; [discriminate|reflexivity].
  - intros devs pre1 first post1 Hdevs Hmem Heq Hpre1 Hfirst.
    unfold get_latest. rewrite Hdevs. run. rewrite Hmem. simpl.
    rewrite Hman, Heq. now apply get_latest_scan_first.
Qed.

(** ** The changelog routes *)

(** ** Strings *)

Lemma str_app_cons (c : ascii) (a b : string) :
  String c a +:+ b = String c (a +:+ b).
Proof. reflexivity. Qed.

Lemma str_app_nil_l (b : string) : "" +:+ b = b.
Proof. reflexivity. Qed.

Lemma str_app_nil_r (a : string) : a +:+ "" = a.
Proof. induction a as [|c a IH]; [reflexivity|]. now rewrite str_app_cons, IH. Qed.

Lemma str_app_assoc (a b c : string) : a +:+ (b +:+ c) = (a +:+ b) +:+ c.
Proof.
  induction a as [|x a IH]; [reflexivity|]. now rewrite !str_app_cons, IH.
Qed.

Lemma str_length_app (a b : string) :
  String.length (a +:+ b) = (String.length a + String.length b)%nat.
Proof.
  induction a as [|x a IH]; [reflexivity|]. rewrite str_app_cons. simpl.
  now rewrite IH.
Qed.

Lemma count_app (c : ascii) (a b : string) :
  Str.count c (a +:+ b) = (Str.count c a + Str.count c b)%nat.
Proof.
  induction a as [|x a IH]; [reflexivity|]. rewrite str_app_cons. simpl.
  rewrite IH. lia.
Qed.

Lemma split_length (sep : ascii) (s : string) :
  length (Str.split sep s) = S (Str.count sep s).
Proof.
  induction s as [|c s IH]; [reflexivity|]. simpl.
  destruct (Ascii.eqb c sep); simpl; [now rewrite IH|].
  destruct (Str.split sep s); simpl in *; lia.
Qed.

Lemma split_without (sep : ascii) (s : string) :
  Str.count sep s = O -> Str.split sep s = [s].
Proof.
  induction s as [|c s IH]; [reflexivity|]. simpl.
  destruct (Ascii.eqb c sep); [discriminate|]. simpl. intros H.
  now rewrite (IH H).
Qed.

Lemma split_app_sep (sep : ascii) (a b : string) :
  Str.count sep a = O ->
  Str.split sep (a +:+ String sep b) = a :: Str.split sep b.
Proof.
  induction a as [|c a IH]; intros H.
  - rewrite str_app_nil_l. simpl. now rewrite Ascii.eqb_refl.
  - rewrite str_app_cons. simpl in *.
    destruct (Ascii.eqb c sep); [discriminate|]. now rewrite (IH H).
Qed.

Lemma take_app_length (a b : string) : Str.take (String.length a) (a +:+ b) = a.
Proof.
  induction a as [|c a IH]; [reflexivity|].
  rewrite str_app_cons. simpl. now rewrite IH.
Qed.

Lemma take_drop (n : nat) (s : string) : Str.take n s +:+ Str.drop n s = s.
Proof.
  revert s. induction n as [|n IH]; intros [|c s]; simpl; try reflexivity.
  now rewrite str_app_cons, IH.
Qed.

Lemma get_app_length (a b : string) (c : ascii) :
  String.get (String.length a) (a +:+ String c b) = Some c.
Proof. induction a as [|x a IH]; [reflexivity|]. rewrite str_app_cons. exact IH. Qed.

Lemma rfind_range (c : ascii) (s : string) :
  -1 <= Str.rfind c s < Z.of_nat (String.length s).
Proof.
  induction s as [|a s IH]; simpl; [lia|].
  destruct (0 <=? Str.rfind c s) eqn:E; [lia|].
  destruct (Ascii.eqb a c); lia.
Qed.

Lemma rfind_app (c : ascii) (a b : string) :
  Str.rfind c (a +:+ b) =
    if 0 <=? Str.rfind c b
    then Z.of_nat (String.length a) + Str.rfind c b
    else Str.rfind c a.
Proof.
  induction a as [|x a IH].
  - rewrite str_app_nil_l. simpl. pose proof (rfind_range c b).
    destruct (0 <=? Str.rfind c b) eqn:E; lia.
  - rewrite str_app_cons. simpl Str.rfind. rewrite IH.
    pose proof (rfind_range c b).
    destruct (0 <=? Str.rfind c b) eqn:E.
    + replace (0 <=? Z.of_nat (String.length a) + Str.rfind c b) with true
        by (symmetry; apply Z.leb_le; lia).
      simpl String.length. lia.
    + reflexivity.
Qed.

Lemma splitext_scan_true (p : string) (lo steps j : nat) (a : ascii) :
  (lo <= j < lo + steps)%nat ->
  String.get j p = Some a -> a <> "."%char ->
  splitext_scan p lo steps = true.
Proof.
  revert lo. induction steps as [|n IH]; intros lo Hj Hget Ha; [lia|].
  simpl. destruct (String.get lo p) as [x|] eqn:E; [|reflexivity].
  destruct (Ascii.eqb_spec x ".") as [->|Hx].
  - destruct (decide (lo = j)) as [->|Hne]; [congruence|].
    apply IH; [lia|assumption..].
  - destruct x as [[] [] [] [] [] [] [] []]; try reflexivity. contradiction.
Qed.

(** The root and the extension are the two parts of the path. *)
Lemma splitext_parts (p : string) : fst (splitext p) +:+ snd (splitext p) = p.
Proof.
  unfold splitext.
  destruct (_ <? _); [destruct (splitext_scan _ _ _)|]; simpl;
    auto using take_drop, str_app_nil_r.
Qed.

Lemma splitext_fields_le (p : string) :
  (length (Str.split "-" (fst (splitext p))) <= length (Str.split "-" p))%nat.
Proof.
  rewrite <- (splitext_parts p) at 2. rewrite !split_length, count_app. lia.
Qed.

Lemma rfind_dot_zip (body : string) :
  Str.rfind "." (body +:+ ".zip") = Z.of_nat (String.length body).
Proof.
  rewrite rfind_app. change (Str.rfind "." ".zip") with 0.
  change (0 <=? 0) with true. cbv iota. lia.
Qed.

Lemma rfind_sep_zip (body : string) :
  Str.rfind "/" (body +:+ ".zip") = Str.rfind "/" body.
Proof. rewrite rfind_app. reflexivity. Qed.

(** A name that ends in [.zip] loses at most that extension. *)
Lemma splitext_zip (body : string) :
  fst (splitext (body +:+ ".zip")) = body \/
  fst (splitext (body +:+ ".zip")) = body +:+ ".zip".
Proof.
  unfold splitext. rewrite rfind_dot_zip, rfind_sep_zip, Nat2Z.id.
  destruct (_ <? _); [destruct (splitext_scan _ _ _)|]; simpl; auto.
  left. apply take_app_length.
Qed.

(** It does lose it when the character before the dot is neither a dot nor
    a separator. *)
Lemma splitext_zip_strip (s : string) (a : ascii) :
  a <> "."%char -> a <> "/"%char ->
  fst (splitext ((s +:+ String a "") +:+ ".zip")) = s +:+ String a "".
Proof.
  intros Hdot Hsep. unfold splitext.
  rewrite rfind_dot_zip, rfind_sep_zip, Nat2Z.id.
  assert (Str.rfind "/" (s +:+ String a "") = Str.rfind "/" s) as ->.
  { rewrite rfind_app. simpl.
    destruct (Ascii.eqb_spec a "/"); [contradiction|reflexivity]. }
  pose proof (rfind_range "/" s) as Hr.
  pose proof (str_length_app s (String a "")) as Hn. simpl in Hn.
  set (n := String.length (s +:+ String a "")) in *.
  replace (Str.rfind "/" s <? Z.of_nat n) with true
    by (symmetry; apply Z.ltb_lt; lia).
  rewrite (splitext_scan_true _ _ _ (String.length s) a).
  - simpl. apply take_app_length.
  - lia.
  - rewrite <- str_app_assoc. rewrite str_app_cons, str_app_nil_l. apply get_app_length.
  - assumption.
Qed.

(** ** Dates *)

Local Arguments digit_char : simpl never.

Lemma forallb_seqZ (f : Z -> bool) (lo len y : Z) :
  forallb f (seqZ lo len) = true -> lo <= y < lo + len -> f y = true.
Proof.
  intros T Hy. rewrite forallb_forall in T.
  apply T, list_elem_of_In, elem_of_seqZ. lia.
Qed.

Lemma digit_table : forallb digit_ok (seqZ 0 10) = true.
Proof. vm_compute. reflexivity. Qed.

Lemma digit_char_cases (n : Z) :
  0 <= n < 10 ->
  ascii_digit (digit_char n) = Some n /\
  digit_char n <> "-"%char /\ digit_char n <> "."%char /\
  digit_char n <> "/"%char.
Proof.
  intros H. pose proof (forallb_seqZ digit_ok 0 10 n digit_table H) as T.
  unfold digit_ok in T. rewrite !andb_true_iff, !negb_true_iff in T.
  destruct T as (((((T1 & _) & _) & T2) & T3) & T4).
  apply bool_decide_eq_true_1 in T1. rewrite !Ascii.eqb_neq in *. auto.
Qed.

Lemma re_decimal_digit_char (n : Z) (rest : string) :
  0 <= n < 10 -> re_decimal (String (digit_char n) rest) = Some (n, rest).
Proof.
  intros H. pose proof (forallb_seqZ digit_ok 0 10 n digit_table H) as T.
  unfold digit_ok in T. rewrite !andb_true_iff in T.
  destruct T as (((((_ & Tb) & Tv) & _) & _) & _).
  apply bool_decide_eq_true_1 in Tv.
  unfold re_decimal, code_point. cbv zeta. rewrite Tb, Tv. reflexivity.
Qed.

Lemma mod10_range (n : Z) : 0 <= n mod 10 < 10.
Proof. apply Z.mod_pos_bound. lia. Qed.

Lemma count_cons (c a : ascii) (s : string) :
  Str.count c (String a s) =
    ((if Ascii.eqb a c then 1 else 0) + Str.count c s)%nat.
Proof. reflexivity. Qed.

Lemma count_digit (c : ascii) (n : Z) (s : string) :
  c = "-"%char \/ c = "."%char \/ c = "/"%char ->
  Str.count c (String (digit_char (n mod 10)) s) = Str.count c s.
Proof.
  intros Hc. rewrite count_cons.
  destruct (digit_char_cases _ (mod10_range n)) as (_ & A1 & A2 & A3).
  destruct (Ascii.eqb_spec (digit_char (n mod 10)) c) as [E|_];
    [|reflexivity].
  destruct Hc as [->|[->| ->]]; contradiction.
Qed.

Lemma pad2_count (c : ascii) (n : Z) :
  c = "-"%char \/ c = "."%char \/ c = "/"%char ->
  Str.count c (pad2 n) = O.
Proof. intros Hc. unfold pad2. now rewrite !count_digit. Qed.

Lemma pad4_count (c : ascii) (n : Z) :
  c = "-"%char \/ c = "."%char \/ c = "/"%char ->
  Str.count c (pad4 n) = O.
Proof. intros Hc. unfold pad4. rewrite !count_digit; auto using pad2_count. Qed.

Lemma re_Y_pad4 (y : Z) (rest : string) :
  0 <= y <= 9999 -> re_Y (pad4 y +:+ rest) = Some (y, rest).
Proof.
  intros Hy. unfold pad4, pad2. rewrite !str_app_cons, str_app_nil_l. unfold re_Y.
  rewrite !(re_decimal_digit_char _ _ (mod10_range _)).
  do 2 f_equal. Z.div_mod_to_equations. lia.
Qed.

Lemma md_table : forallb md_row (seqZ 1 12) = true.
Proof. vm_compute. reflexivity. Qed.

Lemma re_md_pad2 (m d : Z) :
  1 <= m <= 12 -> 1 <= d <= 31 ->
  re_md (pad2 m +:+ pad2 d) = Some (m, d, "").
Proof.
  intros Hm Hd.
  eapply bool_decide_eq_true_1. change (md_read m d = true).
  apply (forallb_seqZ (md_read m) 1 31 d); [|lia].
  apply (forallb_seqZ md_row 1 12 m md_table). lia.
Qed.

Lemma year_table : forallb year_printed (seqZ 1000 9000) = true.
Proof. vm_compute. reflexivity. Qed.

Lemma py_str_year (y : Z) :
  1000 <= y <= 9999 -> py_str (VNum y) = pad4 y.
Proof.
  intros Hy. apply String.eqb_eq.
  apply (forallb_seqZ year_printed 1000 9000 y year_table). lia.
Qed.

Lemma days_in_month_le (y m : Z) : days_in_month y m <= 31.
Proof.
  unfold days_in_month.
  repeat match goal with |- context [if ?c then _ else _] => destruct c end;
    lia.
Qed.

Lemma valid_bounds (y m d : Z) :
  valid y m d = true -> 1 <= y <= 9999 /\ 1 <= m <= 12 /\ 1 <= d <= 31.
Proof.
  unfold valid. rewrite !andb_true_iff, !Z.leb_le.
  pose proof (days_in_month_le y m). lia.
Qed.

Lemma strptime_pad (y m d : Z) :
  valid y m d = true ->
  strptime (pad4 y +:+ pad2 m +:+ pad2 d) = Ok (Date y m d).
Proof.
  intros Hv. destruct (valid_bounds _ _ _ Hv) as (Hy & Hm & Hd).
  unfold strptime, re_match.
  rewrite re_Y_pad4 by lia. rewrite re_md_pad2 by assumption.
  simpl. now rewrite Hv.
Qed.

(** ** The index page: one filename *)

Lemma show_files_step_fields (devices : list (value * value))
    (build_dates : list (string * string)) (zip device build_date : string) :
  fields_of zip = Some (device, build_date) ->
  show_files_step (devices, build_dates) (VStr zip)
    = Ok (add_device device devices,
          keep_latest device build_date build_dates).
Proof.
  unfold fields_of, show_files_step, list_getitem. cbv zeta.
  destruct (Str.split "-" (splitext zip).1 !! 3%nat) as [c|]; [|discriminate].
  destruct (Str.split "-" (splitext zip).1 !! 4%nat) as [d|]; [|discriminate].
  intros [= -> ->]. reflexivity.
Qed.

Lemma show_files_step_short (devices : list (value * value))
    (build_dates : list (string * string)) (zip : string) :
  fields_of zip = None ->
  show_files_step (devices, build_dates) (VStr zip) = Raise IndexError.
Proof.
  unfold fields_of, show_files_step, list_getitem. cbv zeta.
  destruct (Str.split "-" (splitext zip).1 !! 3%nat) as [c|]; [|reflexivity].
  destruct (Str.split "-" (splitext zip).1 !! 4%nat) as [d|]; [|reflexivity].
  discriminate.
Qed.

Lemma fields_of_short (zip : string) :
  (length (Str.split "-" zip) < 5)%nat -> fields_of zip = None.
Proof.
  intros H. pose proof (splitext_fields_le zip) as Hle. unfold fields_of.
  cbv zeta.
  rewrite (lookup_ge_None_2 (Str.split "-" (splitext zip).1) 4) by lia.
  now destruct (_ !! 3%nat).
Qed.

Lemma yyyymmdd_count (c : ascii) (y m d : Z) :
  c = "-"%char \/ c = "."%char \/ c = "/"%char ->
  Str.count c (yyyymmdd y m d) = O.
Proof.
  intros Hc. unfold yyyymmdd.
  now rewrite !count_app, pad4_count, !pad2_count.
Qed.

Lemma split_five (p1 p2 p3 codename date tail : string) :
  Str.count "-" p1 = O -> Str.count "-" p2 = O -> Str.count "-" p3 = O ->
  Str.count "-" codename = O -> Str.count "-" date = O ->
  tail = "" \/ Str.startswith "-" tail = true ->
  exists more,
    Str.split "-"
      (p1 +:+ "-" +:+ p2 +:+ "-" +:+ p3 +:+ "-" +:+ codename +:+ "-" +:+
       date +:+ tail)
    = p1 :: p2 :: p3 :: codename :: date :: more.
Proof.
  intros H1 H2 H3 H4 H5 Ht.
  change (String.app "-") with (fun s => String "-" (String.app "" s)).
  cbv beta. rewrite !str_app_nil_l.
  rewrite !split_app_sep by assumption.
  destruct Ht as [->|Ht].
  - rewrite str_app_nil_r, split_without by assumption. now exists [].
  - destruct tail as [|c tail]; [discriminate|]. simpl in Ht.
    apply Ascii.eqb_eq in Ht as ->.
    rewrite split_app_sep by assumption. eauto.
Qed.

Lemma fields_of_manifest_filename (p1 p2 p3 codename rest : string)
    (y m d : Z) :
  Str.count "-" p1 = O -> Str.count "-" p2 = O -> Str.count "-" p3 = O ->
  Str.count "-" codename = O ->
  rest = "" \/ Str.startswith "-" rest = true ->
  fields_of (manifest_filename p1 p2 p3 codename (yyyymmdd y m d) rest)
    = Some (codename, yyyymmdd y m d).
Proof.
  intros H1 H2 H3 H4 Hrest.
  pose proof (yyyymmdd_count "-" y m d (or_introl eq_refl)) as H5.
  set (date := yyyymmdd y m d) in *.
  set (head := fun tail =>
         p1 +:+ "-" +:+ p2 +:+ "-" +:+ p3 +:+ "-" +:+ codename +:+ "-" +:+
         date +:+ tail).
  assert (forall tail, tail = "" \/ Str.startswith "-" tail = true ->
            match Str.split "-" (head tail) !! 3%nat,
                  Str.split "-" (head tail) !! 4%nat with
            | Some device, Some build_date => Some (device, build_date)
            | _, _ => None
            end = Some (codename, date)) as Hfields.
  { intros tail Ht. unfold head.
    destruct (split_five p1 p2 p3 codename date tail) as [more ->]; auto. }
  assert (manifest_filename p1 p2 p3 codename date rest
          = head rest +:+ ".zip") as Ename.
  { unfold manifest_filename, head. now rewrite <- !str_app_assoc. }
  unfold fields_of. cbv zeta. rewrite Ename.
  destruct Hrest as [->|Hrest].
  - assert (head "" = (p1 +:+ "-" +:+ p2 +:+ "-" +:+ p3 +:+ "-" +:+
              codename +:+ "-" +:+ pad4 y +:+ String (digit_char (m / 10 mod 10)) ""
              +:+ String (digit_char (m mod 10)) (String (digit_char (d / 10 mod 10)) ""))
            +:+ String (digit_char (d mod 10)) "") as Ehead.
    { unfold head, date, yyyymmdd, pad2. rewrite str_app_nil_r.
      rewrite <- !str_app_assoc. reflexivity. }
    destruct (digit_char_cases _ (mod10_range d)) as (_ & _ & Hdot & Hsep).
    assert (fst (splitext (head "" +:+ ".zip")) = head "") as ->.
    { rewrite Ehead. now apply splitext_zip_strip. }
    apply Hfields. now left.
  - destruct (splitext_zip (head rest)) as [-> | ->].
    + apply Hfields. now right.
    + unfold head. rewrite <- !str_app_assoc. apply (Hfields (rest +:+ ".zip")).
      right. destruct rest; [discriminate|exact Hrest].
Qed.

(** ** The index page: the loop over the filenames *)

Lemma keys_setitem {V : Type} (k x : string) (v : V) (d : list (string * V)) :
  x ∈ (dict_setitem String.eqb k v d).*1 -> x = k \/ x ∈ d.*1.
Proof.
  induction d as [|[k' v'] d IH]; simpl.
  - intros H. apply list_elem_of_singleton in H. now left.
  - destruct (String.eqb k' k) eqn:E; simpl; intros H.
    + now right.
    + apply elem_of_cons in H as [->|H].
      * right. apply elem_of_cons. now left.
      * destruct (IH H) as [->|Hx]; [now left|].
        right. apply elem_of_cons. now right.
Qed.

Lemma NoDup_setitem {V : Type} (k : string) (v : V) (d : list (string * V)) :
  NoDup d.*1 -> NoDup (dict_setitem String.eqb k v d).*1.
Proof.
  induction d as [|[k' v'] d IH]; simpl; intros Hd.
  - apply NoDup_singleton.
  - apply NoDup_cons in Hd as [Hk' Hd].
    destruct (String.eqb k' k) eqn:E; simpl.
    + now apply NoDup_cons.
    + apply NoDup_cons. split; [|auto].
      intros Hin. apply keys_setitem in Hin as [->|Hin]; [|contradiction].
      now rewrite String.eqb_refl in E.
Qed.

Lemma Forall_setitem {V : Type} (P : V -> Prop) (k : string) (v : V)
    (d : list (string * V)) :
  P v -> Forall (fun kv => P kv.2) d ->
  Forall (fun kv => P kv.2) (dict_setitem String.eqb k v d).
Proof.
  intros Hv. induction 1 as [|[k' v'] d Hkv Hd IH]; simpl.
  - repeat constructor. exact Hv.
  - destruct (String.eqb k' k); constructor; auto.
Qed.

Lemma gtb_true_le (a b : string) : Str.gtb a b = true -> String.le b a.
Proof.
  unfold Str.gtb, String.ltb, String.le, String.leb.
  now destruct (b ?= a)%string.
Qed.

Lemma gtb_false_le (a b : string) : Str.gtb a b = false <-> String.le a b.
Proof.
  unfold Str.gtb, String.ltb, String.le, String.leb.
  rewrite (String.compare_antisym b a).
  destruct (a ?= b)%string; simpl; intuition discriminate.
Qed.

Lemma keep_latest_other (c c' d : string) (bd : list (string * string)) :
  c <> c' ->
  dict_lookup String.eqb c' (keep_latest c d bd) = dict_lookup String.eqb c' bd.
Proof.
  intros Hne. unfold keep_latest.
  destruct (dict_lookup String.eqb c bd) as [l|];
    [destruct (Str.gtb d l)|]; auto using lookup_setitem_ne.
Qed.

Lemma keep_latest_same (c d : string) (bd : list (string * string))
    (cands : list string) :
  is_latest cands (dict_lookup String.eqb c bd) ->
  is_latest (cands ++ [d]) (dict_lookup String.eqb c (keep_latest c d bd)).
Proof.
  unfold keep_latest, is_latest.
  destruct (dict_lookup String.eqb c bd) as [l|] eqn:E.
  - intros [Hin Hall]. destruct (Str.gtb d l) eqn:G.
    + rewrite lookup_setitem_eq. split; [set_solver|].
      apply gtb_true_le in G. apply Forall_app. split.
      * eapply Forall_impl; [exact Hall|]. intros x Hx. simpl in Hx.
        now transitivity l.
      * repeat constructor. reflexivity.
    + rewrite E. split; [set_solver|].
      apply Forall_app. split; [exact Hall|].
      repeat constructor. now apply gtb_false_le.
  - intros ->. rewrite lookup_setitem_eq. split; [set_solver|].
    repeat constructor. reflexivity.
Qed.

Lemma keep_latest_NoDup (c d : string) (bd : list (string * string)) :
  NoDup bd.*1 -> NoDup (keep_latest c d bd).*1.
Proof.
  intros H. unfold keep_latest.
  destruct (dict_lookup String.eqb c bd) as [l|];
    [destruct (Str.gtb d l)|]; auto using NoDup_setitem.
Qed.

Lemma keep_latest_Forall (P : string -> Prop) (c d : string)
    (bd : list (string * string)) :
  P d -> Forall (fun kv => P kv.2) bd ->
  Forall (fun kv => P kv.2) (keep_latest c d bd).
Proof.
  intros Hd H. unfold keep_latest.
  destruct (dict_lookup String.eqb c bd) as [l|];
    [destruct (Str.gtb d l)|]; auto using Forall_setitem.
Qed.

Lemma dates_of_snoc (c zip : string) (names : list string) :
  dates_of c (names ++ [zip]) =
    dates_of c names ++
    match fields_of zip with
    | Some (device, build_date) =>
        if String.eqb device c then [build_date] else []
    | None => []
    end.
Proof.
  unfold dates_of. rewrite omap_app. f_equal. simpl.
  destruct (fields_of zip) as [[c' d]|]; [|reflexivity].
  now destruct (String.eqb c' c).
Qed.

(** The first loop of [show_files] over names that all have the five
    fields: it ends, the keys of [build_dates] stay distinct, every
    retained date is one of the names' dates, and each codename has the
    greatest of its dates. *)
Lemma show_files_loop (P : string -> Prop) (names : list string) :
  Forall (fun zip => exists c d, fields_of zip = Some (c, d) /\ P d) names ->
  forall (seen : list string) (devs : list (value * value))
         (bd : list (string * string)),
    NoDup bd.*1 ->
    Forall (fun kv => P kv.2) bd ->
    (forall c, is_latest (dates_of c seen) (dict_lookup String.eqb c bd)) ->
    exists devs' bd',
      for_each show_files_step (VStr <$> names) (devs, bd) = Ok (devs', bd') /\
      NoDup bd'.*1 /\
      Forall (fun kv => P kv.2) bd' /\
      (forall c, is_latest (dates_of c (seen ++ names))
                   (dict_lookup String.eqb c bd')).
Proof.
  induction 1 as [|zip names (c & d & Hzip & Hd) _ IH];
    intros seen devs bd Hnd HP Hinv.
  - exists devs, bd. rewrite app_nil_r. auto.
  - rewrite fmap_cons, for_each_cons.
    rewrite (show_files_step_fields _ _ _ _ _ Hzip). run.
    destruct (IH (seen ++ [zip]) (add_device c devs) (keep_latest c d bd))
      as (devs' & bd' & E & Hnd' & HP' & Hinv').
    + now apply keep_latest_NoDup.
    + now apply keep_latest_Forall.
    + intros c'. rewrite dates_of_snoc, Hzip.
      destruct (String.eqb_spec c c') as [<-|Hne].
      * now apply keep_latest_same.
      * rewrite app_nil_r, keep_latest_other by assumption. apply Hinv.
    + exists devs', bd'. rewrite <- app_assoc in Hinv'. auto.
Qed.

(** A name without the five fields stops the loop with IndexError. *)
Lemma show_files_loop_short (names : list string) (zip : string)
    (st : list (value * value) * list (string * string)) :
  zip ∈ names -> fields_of zip = None ->
  for_each show_files_step (VStr <$> names) st = Raise IndexError.
Proof.
  intros Hin Hzip. revert st.
  induction names as [|z names IH]; intros [devs bd].
  - now apply elem_of_nil in Hin.
  - rewrite fmap_cons, for_each_cons.
    destruct (fields_of z) as [[c d]|] eqn:Ez.
    + rewrite (show_files_step_fields _ _ _ _ _ Ez). run.
      apply IH. apply elem_of_cons in Hin as [->|Hin]; [congruence|exact Hin].
    + now rewrite (show_files_step_short _ _ _ Ez).
Qed.

(** ** The index page: printing the dates *)

Lemma lookup_app_notin {V : Type} (k : string) (pre d : list (string * V)) :
  k ∉ pre.*1 ->
  dict_lookup String.eqb k (pre ++ d) = dict_lookup String.eqb k d.
Proof.
  induction pre as [|[k' v'] pre IH]; simpl; intros H; [reflexivity|].
  apply not_elem_of_cons in H as [Hne H].
  destruct (String.eqb_spec k' k); [congruence|auto].
Qed.

Lemma setitem_app_notin {V : Type} (k : string) (v : V)
    (pre d : list (string * V)) :
  k ∉ pre.*1 ->
  dict_setitem String.eqb k v (pre ++ d) = pre ++ dict_setitem String.eqb k v d.
Proof.
  induction pre as [|[k' v'] pre IH]; simpl; intros H; [reflexivity|].
  apply not_elem_of_cons in H as [Hne H].
  destruct (String.eqb_spec k' k); [congruence|]. now rewrite IH.
Qed.

Lemma format_dates_from (pre todo : list (string * string)) :
  NoDup (pre ++ todo).*1 ->
  Forall (fun kv => exists day, strptime kv.2 = Ok day) todo ->
  for_each
    (fun acc '(date, _) =>
       match dict_lookup String.eqb date acc with
       | Some s =>
           d ← Datetime.strptime s;
           Ok (dict_setitem String.eqb date (Datetime.strftime d) acc)
       | None => Raise KeyError
       end) todo (pre ++ todo)
  = Ok (pre ++ (prod_map id reformat <$> todo)).
Proof.
  intros Hnd Hall. revert pre Hnd.
  induction Hall as [|[k v] todo (day & Hday) _ IH]; intros pre Hnd.
  - reflexivity.
  - simpl in *. rewrite fmap_app in Hnd. simpl in Hnd.
    assert (k ∉ pre.*1) as Hk.
    { apply NoDup_app in Hnd as (_ & Hdisj & _). intros Hin.
      apply (Hdisj k Hin). apply elem_of_cons. now left. }
    rewrite lookup_app_notin by assumption. simpl.
    rewrite String.eqb_refl, Hday. run.
    rewrite setitem_app_notin by assumption. simpl. rewrite String.eqb_refl.
    specialize (IH (pre ++ [(k, strftime day)])).
    rewrite <- !app_assoc in IH. simpl in IH. rewrite IH.
    + unfold reformat at 2. simpl. now rewrite Hday.
    + rewrite fmap_app. simpl. exact Hnd.
Qed.

Lemma format_dates_map (bd : list (string * string)) :
  NoDup bd.*1 ->
  Forall (fun kv => exists day, strptime kv.2 = Ok day) bd ->
  format_dates bd = Ok (prod_map id reformat <$> bd).
Proof. intros Hnd Hall. exact (format_dates_from [] bd Hnd Hall). Qed.

Lemma lookup_reformat (c : string) (bd : list (string * string)) :
  dict_lookup String.eqb c (prod_map id reformat <$> bd)
    = reformat <$> dict_lookup String.eqb c bd.
Proof.
  induction bd as [|[k v] bd IH]; [reflexivity|]. simpl.
  now destruct (String.eqb k c).
Qed.

Lemma elem_of_dates_of (c d : string) (names : list string) :
  d ∈ dates_of c names <->
  exists zip, zip ∈ names /\ fields_of zip = Some (c, d).
Proof.
  unfold dates_of. rewrite list_elem_of_omap. split.
  - intros (zip & Hin & Hz). exists zip. split; [exact Hin|].
    destruct (fields_of zip) as [[c' d']|]; [|discriminate].
    destruct (String.eqb_spec c' c); [|discriminate]. congruence.
  - intros (zip & Hin & Hz). exists zip. split; [exact Hin|].
    now rewrite Hz, String.eqb_refl.
Qed.

Lemma compare_lex_lt (a b : string) :
  (a ?= b)%string = Lt <-> lex_lt a b.
Proof.
  revert b. induction a as [|c a IH]; intros [|c' b];
    cbn [String.compare].
  - split; [discriminate|inversion 1].
  - split; [constructor|reflexivity].
  - split; [discriminate|inversion 1].
  - unfold Ascii.compare.
    destruct (N.compare_spec (N_of_ascii c) (N_of_ascii c')) as [E|L|G].
    + assert (c = c') as <-.
      { rewrite <- (ascii_N_embedding c), <- (ascii_N_embedding c').
        now rewrite E. }
      rewrite IH. split; [now constructor|].
      inversion 1; subst; [lia|assumption].
    + split; [now constructor|reflexivity].
    + split; [discriminate|]. inversion 1; subst; lia.
Qed.

Lemma le_lex_lt (a b : string) : String.le a b -> a = b \/ lex_lt a b.
Proof.
  unfold String.le, String.leb. destruct (a ?= b)%string eqn:E.
  - left. now apply String.compare_eq_iff.
  - right. now apply compare_lex_lt.
  - intros [].
Qed.

(** ** The index page *)

(** C6: for every codename found in the manifest's filenames the index page
    shows, printed as a date, the greatest of the date fields (index 4) of
    all the filenames of that codename, wherever they stand in the
    manifest: each of them is that date or comes before it in the order of
    strings. *)
Theorem show_files_latest_date (devices : devices_json)
    (manifest : builds_json) (devs : list (value * value))
    (names : list string) :
  get_devices devices = Ok devs ->
  get_zips manifest = Ok (VStr <$> names) ->
  Forall (fun zip => exists c d,
            fields_of zip = Some (c, d) /\ exists day, strptime d = Ok day)
    names ->
  exists devs' build_dates,
    show_files devices manifest = Ok (LatestPage devs' build_dates) /\
    forall zip c d,
      zip ∈ names -> fields_of zip = Some (c, d) ->
      exists zip' latest day,
        zip' ∈ names /\ fields_of zip' = Some (c, latest) /\
        (forall zip'' d'',
            zip'' ∈ names -> fields_of zip'' = Some (c, d'') ->
            d'' = latest \/ lex_lt d'' latest) /\
        strptime latest = Ok day /\
        dict_lookup String.eqb c build_dates = Some (strftime day).
Proof.
  intros Hdevs Hzips Hnames.
  destruct (show_files_loop _ names Hnames [] devs [])
    as (devs' & bd & Eloop & Hnd & Hparse & Hinv).
  { constructor. } { constructor. } { intros c. reflexivity. }
  exists devs', (prod_map id reformat <$> bd). split.
  - unfold show_files. rewrite Hzips, Hdevs. run. rewrite Eloop. run.
    rewrite (format_dates_map bd Hnd Hparse). reflexivity.
  - intros zip c d Hin Hzip. specialize (Hinv c). simpl in Hinv.
    rewrite lookup_reformat.
    destruct (dict_lookup String.eqb c bd) as [latest|] eqn:El; simpl in Hinv.
    + destruct Hinv as [Hl Hall].
      apply elem_of_dates_of in Hl as (zip' & Hin' & Hzip').
      apply list_elem_of_lookup in Hin' as Hi. destruct Hi as [i Hi].
      destruct (Forall_lookup_1 _ _ _ _ Hnames Hi)
        as (c0 & d0 & E0 & day & Hday).
      rewrite Hzip' in E0. injection E0 as <- <-.
      exists zip', latest, day. repeat split; try assumption.
      * intros zip'' d'' Hin'' Hzip''. apply le_lex_lt.
        rewrite Forall_forall in Hall. apply Hall.
        apply elem_of_dates_of. eauto.
      * simpl. unfold reformat. now rewrite Hday.
    + assert (d ∈ dates_of c names) as Hd
        by (apply elem_of_dates_of; eauto).
      rewrite Hinv in Hd. now apply elem_of_nil in Hd.
Qed.

(** C8: a manifest filename with fewer than five fields between hyphens
    makes the index route fail with IndexError: nothing checks the number
    of fields before the fields at index 3 and 4 are read. *)
Theorem show_files_short_filename (devices : devices_json)
    (manifest : builds_json) (devs : list (value * value))
    (names : list string) (zip : string) :
  get_devices devices = Ok devs ->
  get_zips manifest = Ok (VStr <$> names) ->
  zip ∈ names ->
  (length (Str.split "-" zip) < 5)%nat ->
  show_files devices manifest = Raise IndexError.
Proof.
  intros Hdevs Hzips Hin Hshort. unfold show_files.
  rewrite Hzips, Hdevs. run.
  now rewrite (show_files_loop_short names zip _ Hin (fields_of_short _ Hshort)).
Qed.


(** ** The changelog of a device *)

Lemma prefix_empty (s : string) : String.prefix "" s = true.
Proof. now destruct s. Qed.

Lemma replace_newline_count (s : string) :
  Str.count "010" (Str.replace newline "<br>" s) = O.
Proof.
  unfold Str.replace, newline. induction s as [|c s IH]; [reflexivity|].
  cbn [Str.replace_from String.prefix String.length Nat.pred].
  destruct (ascii_dec "010" c) as [<-|Hne].
  - rewrite prefix_empty, count_app, IH. reflexivity.
  - rewrite count_cons, IH.
    destruct (Ascii.eqb_spec c "010"); [congruence|reflexivity].
Qed.

Lemma endswith_app (c : ascii) (s t : string) :
  t <> "" -> Str.endswith c (s +:+ t) = Str.endswith c t.
Proof.
  intros Ht. induction s as [|a s IH]; [reflexivity|].
  rewrite str_app_cons. cbn [Str.endswith]. rewrite IH.
  destruct (s +:+ t) eqn:E; [|reflexivity].
  destruct s, t; try discriminate. contradiction.
Qed.

Lemma endswith_count (c : ascii) (s : string) :
  Str.count c s = O -> Str.endswith c s = false.
Proof.
  induction s as [|a s IH]; [reflexivity|]. rewrite count_cons.
  destruct (Ascii.eqb a c) eqn:E; [discriminate|]. simpl. intros H.
  destruct s; [exact E|]. exact (IH H).
Qed.

Lemma replace_newline (s : string) :
  Str.replace newline "<br>" s = newlines_to_br s.
Proof.
  unfold Str.replace, newline. induction s as [|c s IH]; [reflexivity|].
  cbn [Str.replace_from String.prefix String.length Nat.pred newlines_to_br].
  destruct (ascii_dec "010" c) as [<-|Hne].
  - now rewrite prefix_empty, IH.
  - rewrite IH. destruct (Ascii.eqb_spec c "010"); [congruence|reflexivity].
Qed.

Lemma join_device_url (device : string) :
  device <> "" -> Str.count "/" device = O ->
  join changelog_base_url [device; "changelog"] =
    "https://raw.githubusercontent.com/AOSiP-Devices/Updater-Stuff/master/"
      +:+ device +:+ "/changelog".
Proof.
  intros Hne Hslash. unfold join. cbn [fold_left].
  assert (Str.startswith "/" device = false) as ->.
  { destruct device as [|a d]; [reflexivity|]. rewrite count_cons in Hslash.
    simpl. destruct (Ascii.eqb a "/"); [discriminate|reflexivity]. }
  change (Str.startswith "/" "changelog") with false.
  change (String.eqb changelog_base_url "" ||
          Str.endswith "/" changelog_base_url) with false.
  cbv iota.
  assert (Str.endswith "/" (changelog_base_url +:+ "/" +:+ device) = false)
    as ->.
  { rewrite endswith_app by discriminate.
    rewrite (endswith_app "/" "/" device Hne). now apply endswith_count. }
  rewrite orb_false_r.
  assert (String.eqb (changelog_base_url +:+ "/" +:+ device) "" = false)
    as -> by reflexivity.
  now rewrite <- !str_app_assoc.
Qed.

(** C9: for a device name as the route takes it from the path, not empty
    and without a slash, the route asks for the global changelog and then
    for [<base>/<device>/changelog], in this order and in either case.  The
    status of the first answer is not looked at.  When the second answer is
    not a 200 the failure text is returned and the global body is dropped;
    otherwise the answer is the global body, a newline and the device's
    body, with each newline character turned into [<br>]. *)
Theorem changelog_device_spec (upstream : string -> http_response)
    (device : string) (log : list string) :
  device <> "" -> Str.count "/" device = O ->
  let global_url :=
    "https://raw.githubusercontent.com/AOSiP-Devices/Updater-Stuff/master/changelog" in
  let device_url :=
    "https://raw.githubusercontent.com/AOSiP-Devices/Updater-Stuff/master/"
      +:+ device +:+ "/changelog" in
  changelog_device upstream device log =
    (if status_code (upstream device_url) =? 200
     then Text (newlines_to_br
                  (text (upstream global_url) +:+ String "010" "" +:+
                   text (upstream device_url)))
     else Text ("Fetching changelog for " +:+ device +:+ " failed!"),
     log ++ [global_url; device_url]).
Proof.
  intros Hne Hslash global_url device_url. unfold changelog_device.
  rewrite (join_device_url device Hne Hslash). fold device_url.
  change (join changelog_base_url ["changelog"]) with global_url.
  unfold mbind, http_bind, mret, http_ret, requests_get.
  rewrite <- app_assoc. cbn [app].
  destruct (status_code (upstream device_url) =? 200); cbn [negb];
    [|reflexivity].
  now rewrite replace_newline.
Qed.

(** * The statements on the sample documents *)

Lemma ota_first_match_witness :
  exists r : record,
    ota "https://get.aosip.dev" iso_date_timestamp sample_devices
      sample_builds "beryllium" "official" = Ok (Jsonify [r]) /\
    r !! "id" = Some (VStr "a3e0") /\
    r !! "url" =
      Some (VStr ("https://get.aosip.dev" +:+ "/beryllium/" +:+
                  "AOSiP-10-Official-beryllium-20200415.zip")) /\
    r !! "romtype" = Some (VStr "official") /\
    r !! "datetime" = Some (VNum 1586908800) /\
    r !! "version" = Some (VStr "10") /\
    r !! "filename" = Some (VStr "AOSiP-10-Official-beryllium-20200415.zip") /\
    r !! "size" = Some (VNum 1073741824) /\
    dom r = list_to_set
      ["id"; "url"; "romtype"; "datetime"; "version"; "filename"; "size"].
Proof.
  apply (ota_first_match "https://get.aosip.dev" iso_date_timestamp
           sample_devices sample_builds "beryllium" "official"
           sample_directory [gapps_a] [official_b; gapps_b] official_a
           (VStr "a3e0") (VStr "2020-04-15") (VStr "10") (VNum 1073741824)
           "/beryllium/" "AOSiP-10-Official-beryllium-20200415.zip"
           1586908800); try reflexivity.
  apply Forall_cons. split; [|constructor].
  exists (VStr "gapps"). split; [reflexivity|discriminate].
Defined.

Lemma ota_no_match_witness :
  ota "https://get.aosip.dev" iso_date_timestamp sample_devices
    sample_builds "sailfish" "official" = Ok (Jsonify []) /\
  ota "https://get.aosip.dev" iso_date_timestamp sample_devices
    sample_builds "beryllium" "beta" = Ok (Jsonify []).
Proof.
  split.
  - apply (ota_no_match "https://get.aosip.dev" iso_date_timestamp
             sample_devices sample_builds "sailfish" "official"
             sample_directory); [reflexivity|].
    left. reflexivity.
  - apply (ota_no_match "https://get.aosip.dev" iso_date_timestamp
             sample_devices sample_builds "beryllium" "beta"
             sample_directory); [reflexivity|].
    right. exists [gapps_a; official_a; official_b; gapps_b].
    split; [reflexivity|].
    repeat (apply Forall_cons; split;
            [eexists; split; [reflexivity|discriminate]|]).
    constructor.
Defined.

Lemma ota_missing_manifest_key_witness :
  ota "https://get.aosip.dev" iso_date_timestamp sample_devices
    sample_builds "ghost" "official" = Raise KeyError /\
  ota "https://get.aosip.dev" iso_date_timestamp sample_devices
    sample_builds "ghost" "official" <> Ok (Jsonify []).
Proof.
  apply (ota_missing_manifest_key "https://get.aosip.dev"
           iso_date_timestamp sample_devices sample_builds "ghost"
           "official" sample_directory); reflexivity.
Defined.

Lemma latest_device_no_allowed_witness :
  (forall files device model xda maintainer,
      latest_device sample_devices sample_builds "legacy"
        <> Ok (DevicePage files device model xda maintainer)) /\
  (forall body,
      latest_device sample_devices sample_builds "legacy" <> Ok (Text body)).
Proof.
  apply (latest_device_no_allowed sample_devices sample_builds "legacy"
           [beta_build]); [reflexivity|].
  apply Forall_cons. split; [reflexivity|constructor].
Defined.

(** C5 as it was stated fails: legacy is in the manifest, none of its builds
    has an allow-listed type, and no device page is produced, with an empty
    file map or another. *)
Lemma latest_device_empty_map_counterexample :
  dict_lookup String.eqb "legacy" sample_builds = Some [beta_build] /\
  py_in (dict_get beta_build "type") ALLOWED_BUILDTYPES = false /\
  ~ (exists files model xda maintainer,
        latest_device sample_devices sample_builds "legacy"
          = Ok (DevicePage files "legacy" model xda maintainer)).
Proof.
  split; [reflexivity|]. split; [reflexivity|].
  intros (files & model & xda & maintainer & H).
  vm_compute in H. discriminate H.
Qed.

Lemma show_files_short_filename_witness :
  show_files sample_devices misnamed_builds = Raise IndexError.
Proof.
  apply (show_files_short_filename sample_devices misnamed_builds
           sample_directory
           ["AOSiP-10-Official-beryllium-20200415.zip";
            "AOSiP-10-beryllium.zip"]
           "AOSiP-10-beryllium.zip"); try reflexivity.
  - apply elem_of_cons. right. apply elem_of_cons. left. reflexivity.
  - vm_compute. lia.
Defined.

Lemma latest_device_records_witness :
  (exists files1,
      for_each latest_device_step [gapps_a; official_a] [] = Ok files1 /\
      dict_lookup String.eqb "official" files1
        = Some (VStr "AOSiP-10-Official-beryllium-20200415.zip") /\
      dict_lookup String.eqb "official-img" files1
        = Some (VStr "AOSiP-10-Official-beryllium-20200415-img.zip") /\
      dict_lookup String.eqb "official-boot" files1
        = Some (VStr "AOSiP-10-Official-beryllium-20200415-boot.img")) /\
  latest_device sample_devices single_build "beryllium"
    = Ok (DevicePage
            [("official", VStr "AOSiP-10-Official-beryllium-20200415.zip");
             ("official-img",
              VStr "AOSiP-10-Official-beryllium-20200415-img.zip");
             ("official-boot",
              VStr "AOSiP-10-Official-beryllium-20200415-boot.img")]
            "beryllium" (VStr "Poco F1")
            (VStr "https://forum.xda-developers.com/poco-f1")
            (VStr "someone")).
Proof.
  assert (Forall has_filename [gapps_a]) as Hpre.
  { apply Forall_cons. split; [eexists; reflexivity|constructor]. }
  assert (Forall has_filename [official_b; gapps_b]) as Hpost.
  { repeat (apply Forall_cons; split; [eexists; reflexivity|]).
    constructor. }
  split.
  - destruct (latest_device_records sample_devices sample_builds
                "beryllium" [gapps_a] [official_b; gapps_b] official_a
                "official" "AOSiP-10-Official-beryllium-20200415.zip"
                (VStr "https://forum.xda-developers.com/poco-f1")
                (VStr "Poco F1") (VStr "someone")
                eq_refl Hpre Hpost eq_refl eq_refl eq_refl eq_refl)
      as ((files1 & E & L1 & L2 & L3) & _).
    exists files1. split; [exact E|]. split; [exact L1|].
    split; [exact (L2 eq_refl)|exact (L3 eq_refl)].
  - apply (latest_device_records sample_devices single_build
             "beryllium" [] [] official_a
             "official" "AOSiP-10-Official-beryllium-20200415.zip"
             (VStr "https://forum.xda-developers.com/poco-f1")
             (VStr "Poco F1") (VStr "someone")
             eq_refl (List.Forall_nil _) (List.Forall_nil _)
             eq_refl eq_refl eq_refl eq_refl); reflexivity.
Defined.

Lemma latest_device_last_wins_witness :
  (exists files,
      latest_device sample_devices sample_builds "beryllium"
        = Ok (DevicePage files "beryllium" (VStr "Poco F1")
                (VStr "https://forum.xda-developers.com/poco-f1")
                (VStr "someone")) /\
      dict_lookup String.eqb "official" files
        = Some (VStr "AOSiP-10-Official-beryllium-20200501.zip")) /\
  get_latest sample_devices sample_builds "beryllium" "official"
    = Ok official_a.
Proof.
  assert (Forall has_filename
            ([gapps_a; official_a] ++ official_b :: [gapps_b])) as Hall.
  { repeat (apply Forall_cons; split; [eexists; reflexivity|]).
    constructor. }
  assert (Forall (fun b' => dict_get b' "type" <> VStr "official")
            [gapps_b]) as Hpost.
  { apply Forall_cons. split; [discriminate|constructor]. }
  destruct (latest_device_last_wins sample_devices sample_builds
              "beryllium" [gapps_a; official_a] [gapps_b] official_b
              "official"
              (VStr "https://forum.xda-developers.com/poco-f1")
              (VStr "Poco F1") (VStr "someone")
              eq_refl Hall eq_refl eq_refl Hpost eq_refl)
    as [Hpage Hota].
  split; [exact Hpage|].
  apply (Hota sample_directory [gapps_a] official_a [official_b; gapps_b]);
    try reflexivity.
  apply Forall_cons. split; [|constructor].
  exists (VStr "gapps"). split; [reflexivity|discriminate].
Defined.


Lemma show_files_latest_date_witness :
  exists devs' build_dates,
    show_files sample_devices unordered_builds
      = Ok (LatestPage devs' build_dates) /\
    dict_lookup String.eqb "beryllium" build_dates
      = Some "Monday, 01 June - 2020".
Proof.
  destruct (show_files_latest_date sample_devices unordered_builds
              sample_directory unordered_names)
    as (devs' & bd & Hpage & Hlatest); try reflexivity.
  { assert (forall zip c d day,
              fields_of zip = Some (c, d) -> strptime d = Ok day ->
              exists c d, fields_of zip = Some (c, d) /\
                          exists day, strptime d = Ok day) as Hname
      by eauto.
    apply Forall_cons; split;
      [apply (Hname _ "beryllium" "20200415" (Date 2020 4 15));
         vm_compute; reflexivity|].
    apply Forall_cons; split;
      [apply (Hname _ "beryllium" "20200601" (Date 2020 6 1));
         vm_compute; reflexivity|].
    apply Forall_cons; split;
      [apply (Hname _ "beryllium" "20200501" (Date 2020 5 1));
         vm_compute; reflexivity|].
    constructor. }
  exists devs', bd. split; [exact Hpage|].
  destruct (Hlatest "AOSiP-10-Official-beryllium-20200415.zip"
              "beryllium" "20200415")
    as (zip' & latest & day & Hin & Hf & Hmax & Hday & Hshown).
  { apply elem_of_cons. left. reflexivity. }
  { vm_compute. reflexivity. }
  assert ("20200601" = latest \/ lex_lt "20200601" latest) as Hjune.
  { apply (Hmax "AOSiP-10-Gapps-beryllium-20200601.zip").
    - apply elem_of_cons. right. apply elem_of_cons. left. reflexivity.
    - vm_compute. reflexivity. }
  assert (latest = "20200601") as ->.
  { apply elem_of_cons in Hin as [->|Hin];
      [|apply elem_of_cons in Hin as [->|Hin];
        [|apply list_elem_of_singleton in Hin as ->]];
      vm_compute in Hf; injection Hf as <-;
      try reflexivity;
      (destruct Hjune as [E|L];
       [discriminate E|apply compare_lex_lt in L; discriminate L]). }
  vm_compute in Hday. injection Hday as <-.
  rewrite Hshown. vm_compute. reflexivity.
Defined.

Lemma changelog_device_spec_witness :
  changelog_device partial_upstream "beryllium" [] =
    (Text "404: Not Found<br>- kernel<br>- camera<br>",
     ["https://raw.githubusercontent.com/AOSiP-Devices/Updater-Stuff/master/changelog";
      "https://raw.githubusercontent.com/AOSiP-Devices/Updater-Stuff/master/beryllium/changelog"]) /\
  changelog_device partial_upstream "ghost" [] =
    (Text "Fetching changelog for ghost failed!",
     ["https://raw.githubusercontent.com/AOSiP-Devices/Updater-Stuff/master/changelog";
      "https://raw.githubusercontent.com/AOSiP-Devices/Updater-Stuff/master/ghost/changelog"]).
Proof.
  split.
  - etransitivity;
      [exact (changelog_device_spec partial_upstream "beryllium" []
                ltac:(discriminate) eq_refl)|].
    vm_compute. reflexivity.
  - etransitivity;
      [exact (changelog_device_spec partial_upstream "ghost" []
                ltac:(discriminate) eq_refl)|].
    vm_compute. reflexivity.
Defined.

(** * Further properties *)


(** ** Dictionaries keyed by values *)

Lemma py_eqb_key (a b : value) : py_eqb a b = true <-> py_key a = py_key b.
Proof.
  destruct a as [|[]|n|s], b as [|[]|m|t]; simpl; split; intros H;
    try discriminate; try reflexivity;
    try (apply Z.eqb_eq in H; subst; reflexivity);
    try (apply String.eqb_eq in H; subst; reflexivity);
    try (injection H as ->; first [apply Z.eqb_refl | apply String.eqb_refl]).
  all: try (injection H as <-; reflexivity).
Qed.

Lemma py_eqb_refl (a : value) : py_eqb a a = true.
Proof. now apply py_eqb_key. Qed.

Lemma py_eqb_shift (a b c : value) :
  py_eqb a b = true -> py_eqb a c = py_eqb b c.
Proof.
  intros H. apply py_eqb_key in H. apply eq_true_iff_eq.
  rewrite !py_eqb_key, H. reflexivity.
Qed.

Lemma py_lookup_setitem_eq {V : Type} (k : value) (v : V)
    (d : list (value * V)) :
  dict_lookup py_eqb k (dict_setitem py_eqb k v d) = Some v.
Proof.
  induction d as [|[k' v'] d IH]; simpl.
  - now rewrite py_eqb_refl.
  - destruct (py_eqb k' k) eqn:E; simpl; rewrite E; [reflexivity|exact IH].
Qed.

Lemma py_lookup_setitem_ne {V : Type} (k k' : value) (v : V)
    (d : list (value * V)) :
  py_eqb k k' = false ->
  dict_lookup py_eqb k' (dict_setitem py_eqb k v d)
    = dict_lookup py_eqb k' d.
Proof.
  intros Hne. induction d as [|[k0 v0] d IH]; simpl.
  - now rewrite Hne.
  - destruct (py_eqb k0 k) eqn:E; simpl.
    + now rewrite (py_eqb_shift _ _ k' E), Hne.
    + now rewrite IH.
Qed.

Lemma py_contains_setitem {V : Type} (k k' : value) (v : V)
    (d : list (value * V)) :
  dict_contains py_eqb k' (dict_setitem py_eqb k v d)
    = py_eqb k k' || dict_contains py_eqb k' d.
Proof.
  unfold dict_contains. destruct (py_eqb k k') eqn:E; simpl.
  - assert (dict_lookup py_eqb k' (dict_setitem py_eqb k v d) = Some v) as ->;
      [|reflexivity].
    induction d as [|[k0 v0] d IH]; simpl.
    + now rewrite E.
    + destruct (py_eqb k0 k) eqn:E0; simpl.
      * now rewrite (py_eqb_shift _ _ k' E0), E.
      * destruct (py_eqb k0 k') eqn:E1; [|exact IH].
        apply py_eqb_key in E, E1. rewrite <- E1 in E.
        symmetry in E. apply py_eqb_key in E. congruence.
    
  - now rewrite py_lookup_setitem_ne.
Qed.

(** ** The device directory *)

Lemma get_devices_unfold (data : devices_json) :
  get_devices data =
  for_each
    (fun acc d =>
       k ← getitem d "codename";
       v ← getitem d "device";
       Ok (dict_setitem py_eqb k v acc))
    data [].
Proof. reflexivity. Qed.

Lemma get_devices_step (acc : list (value * value)) (d : record) :
  (k ← getitem d "codename"; v ← getitem d "device";
   Ok (dict_setitem py_eqb k v acc)) =
  match d !! "codename", d !! "device" with
  | Some k, Some v => Ok (dict_setitem py_eqb k v acc)
  | _, _ => Raise KeyError
  end.
Proof.
  unfold getitem. destruct (d !! "codename"); [|reflexivity].
  run. now destruct (d !! "device").
Qed.

Lemma get_devices_loop_incomplete (data : devices_json) :
  Exists (fun d => ~ complete_device d) data ->
  forall acc,
    for_each
      (fun acc d =>
         k ← getitem d "codename";
         v ← getitem d "device";
         Ok (dict_setitem py_eqb k v acc))
      data acc = Raise KeyError.
Proof.
  induction 1 as [d data Hd|d data _ IH]; intros acc;
    rewrite for_each_cons, get_devices_step.
  - destruct (d !! "codename") as [k|] eqn:Ek; [|reflexivity].
    destruct (d !! "device") as [v|] eqn:Ev; [|reflexivity].
    exfalso. apply Hd. split; [rewrite Ek|rewrite Ev]; eauto.
  - destruct (d !! "codename") as [k|]; [|reflexivity].
    destruct (d !! "device") as [v|]; [|reflexivity].
    run. apply IH.
Qed.

Lemma get_devices_loop_contains (data : devices_json) (k : value) :
  forall acc devs,
    for_each
      (fun acc d =>
         k ← getitem d "codename";
         v ← getitem d "device";
         Ok (dict_setitem py_eqb k v acc))
      data acc = Ok devs ->
    dict_contains py_eqb k devs = true <->
    dict_contains py_eqb k acc = true \/
    exists d kd, d ∈ data /\ d !! "codename" = Some kd /\ py_eqb kd k = true.
Proof.
  induction data as [|d data IH]; intros acc devs.
  - simpl. intros [= <-]. split; [auto|].
    intros [H|(d & kd & Hin & _)]; [exact H|]. now apply elem_of_nil in Hin.
  - rewrite for_each_cons, get_devices_step.
    destruct (d !! "codename") as [kd|] eqn:Ek; [|discriminate].
    destruct (d !! "device") as [v|] eqn:Ev; [|discriminate].
    run. intros H. rewrite (IH _ _ H), py_contains_setitem, orb_true_iff.
    split.
    + intros [[Hk|Hacc]|(d' & kd' & Hin & Hd' & Hk)].
      * right. exists d, kd. split; [apply elem_of_cons; now left|auto].
      * now left.
      * right. exists d', kd'. split; [apply elem_of_cons; now right|auto].
    + intros [Hacc|(d' & kd' & Hin & Hd' & Hk)]; [auto|].
      apply elem_of_cons in Hin as [->|Hin].
      * left. left. congruence.
      * right. eauto.
Qed.

Lemma get_devices_loop_ok (data : devices_json) :
  Forall complete_device data ->
  forall acc, exists devs,
    for_each
      (fun acc d =>
         k ← getitem d "codename";
         v ← getitem d "device";
         Ok (dict_setitem py_eqb k v acc))
      data acc = Ok devs /\
    forall c,
      Forall (fun d => d !! "codename" <> Some (VStr c)) data ->
      dict_lookup py_eqb (VStr c) devs = dict_lookup py_eqb (VStr c) acc.
Proof.
  induction 1 as [|d data [[k Hk] [v Hv]] _ IH]; intros acc.
  - exists acc. split; [reflexivity|auto].
  - rewrite for_each_cons, get_devices_step, Hk, Hv. run.
    destruct (IH (dict_setitem py_eqb k v acc)) as (devs & E & Hframe).
    exists devs. split; [exact E|].
    intros c Hc. apply Forall_cons in Hc as [Hd Hrest].
    rewrite (Hframe c Hrest). apply py_lookup_setitem_ne.
    apply py_eqb_str_false. congruence.
Qed.

(** X1: a device record without [codename] or [device] makes the loader of
    the directory raise KeyError, and with it every request to the OTA
    route, whatever device it asks for. *)
Theorem get_devices_incomplete (data : devices_json) :
  Exists (fun d => ~ complete_device d) data ->
  get_devices data = Raise KeyError /\
  forall base arrow manifest device romtype,
    ota base arrow data manifest device romtype = Raise KeyError.
Proof.
  intros H.
  assert (get_devices data = Raise KeyError) as E
    by (rewrite get_devices_unfold; now apply get_devices_loop_incomplete).
  split; [exact E|]. intros. unfold ota, get_latest. now rewrite E.
Qed.

(** X2: the directory that [get_latest] checks a device against holds
    exactly the codenames of the records of devices.json. *)
Theorem get_devices_contains (data : devices_json)
    (devs : list (value * value)) (c : string) :
  get_devices data = Ok devs ->
  dict_contains py_eqb (VStr c) devs = true <->
  exists d, d ∈ data /\ d !! "codename" = Some (VStr c).
Proof.
  intros H. rewrite get_devices_unfold in H.
  rewrite (get_devices_loop_contains data (VStr c) [] devs H). split.
  - intros [?|(d & kd & Hin & Hd & Hk)]; [discriminate|].
    apply py_eqb_str in Hk as ->. eauto.
  - intros (d & Hin & Hd). right. exists d, (VStr c).
    repeat split; auto. apply py_eqb_refl.
Qed.

(** X3: when several records carry the same codename, the directory maps it
    to the display name of the last of them. *)
Theorem get_devices_last_wins (pre post : devices_json) (d : record)
    (c : string) (name : value) :
  Forall complete_device (pre ++ d :: post) ->
  d !! "codename" = Some (VStr c) ->
  d !! "device" = Some name ->
  Forall (fun d' => d' !! "codename" <> Some (VStr c)) post ->
  exists devs,
    get_devices (pre ++ d :: post) = Ok devs /\
    dict_lookup py_eqb (VStr c) devs = Some name.
Proof.
  intros Hall Hc Hname Hpost.
  apply Forall_app in Hall as [Hpre Hdp].
  apply Forall_cons in Hdp as [_ Hpostc].
  destruct (get_devices_loop_ok pre Hpre []) as (devs0 & E0 & _).
  destruct (get_devices_loop_ok post Hpostc
              (dict_setitem py_eqb (VStr c) name devs0))
    as (devs & E & Hframe).
  exists devs. split.
  - rewrite get_devices_unfold, for_each_app, E0. run.
    rewrite for_each_cons, get_devices_step, Hc, Hname. run. exact E.
  - rewrite (Hframe c Hpost). apply py_lookup_setitem_eq.
Qed.

(** ** The device page: the directory lookup *)

Lemma find_device_first (pre post : devices_json) (d : record)
    (target : string) :
  Forall (other_codename target) pre ->
  d !! "codename" = Some (VStr target) ->
  find_device (pre ++ d :: post) target
    = Ok (dict_get d "xda", dict_get d "device", dict_get d "maintainer").
Proof.
  intros Hpre Hd. induction Hpre as [|d' pre (k & Hk & Hne) _ IH]; simpl.
  - run. simpl. now rewrite String.eqb_refl.
  - run. now rewrite py_eqb_str_false.
Qed.

Lemma find_device_absent (devices : devices_json) (target : string) :
  Forall (other_codename target) devices ->
  find_device devices target = Ok (VNone, VStr target, VNone).
Proof.
  induction 1 as [|d' pre (k & Hk & Hne) _ IH]; simpl; [reflexivity|].
  run. now rewrite py_eqb_str_false.
Qed.

Lemma find_device_no_codename (pre post : devices_json) (d : record)
    (target : string) :
  Forall (other_codename target) pre ->
  d !! "codename" = None ->
  find_device (pre ++ d :: post) target = Raise KeyError.
Proof.
  intros Hpre Hd. induction Hpre as [|d' pre (k & Hk & Hne) _ IH]; simpl.
  - unfold getitem. now rewrite Hd.
  - run. now rewrite py_eqb_str_false.
Qed.

(** The loop over builds with string filenames, one of them of an
    allow-listed type, ends with a map that is not empty. *)
Lemma latest_device_loop_nonempty (builds : list record) :
  Forall has_filename builds ->
  Exists (fun b => py_in (dict_get b "type") ALLOWED_BUILDTYPES = true)
    builds ->
  exists kv files,
    for_each latest_device_step builds [] = Ok (kv :: files).
Proof.
  intros Hall Hex. apply Exists_exists in Hex as (b & Hin & Hb).
  apply list_elem_of_split in Hin as (pre & post & ->).
  apply Forall_app in Hall as [Hpre Hbp].
  apply Forall_cons in Hbp as [[f Hf] Hpost].
  assert (exists t, dict_get b "type" = VStr t) as [t Ht].
  { apply allowed_type in Hb as [->| ->]; eauto. }
  rewrite Ht in Hb. apply dict_get_Some in Hf.
  destruct (latest_device_loop pre [] Hpre) as (files0 & E0 & _ & _).
  destruct (latest_device_step_entries files0 b t f Ht Hb Hf)
    as (files1 & E1 & Lt & _).
  destruct (latest_device_loop post files1 Hpost) as (files & E & Hkeep & _).
  destruct files as [|kv files].
  - destruct (Hkeep t) as [? ?]; [rewrite Lt; eauto|discriminate].
  - exists kv, files. rewrite for_each_app, E0. run.
    rewrite for_each_cons, E1. run. exact E.
Qed.

(** X6: the page takes the model, the forum link and the maintainer from
    the first record of devices.json with the codename; the records after
    it are not read. *)
Theorem latest_device_directory_first (pre post : devices_json)
    (d : record) (manifest : builds_json) (target_device : string)
    (builds : list record) :
  dict_lookup String.eqb target_device manifest = Some builds ->
  Forall has_filename builds ->
  Exists (fun b => py_in (dict_get b "type") ALLOWED_BUILDTYPES = true)
    builds ->
  Forall (other_codename target_device) pre ->
  d !! "codename" = Some (VStr target_device) ->
  exists kv files,
    latest_device (pre ++ d :: post) manifest target_device
      = Ok (DevicePage (kv :: files) target_device (dict_get d "device")
              (dict_get d "xda") (dict_get d "maintainer")).
Proof.
  intros Hman Hall Hex Hpre Hd.
  destruct (latest_device_loop_nonempty builds Hall Hex) as (kv & files & E).
  exists kv, files. unfold latest_device. rewrite Hman, E. run.
  now rewrite (find_device_first _ _ _ _ Hpre Hd).
Qed.

(** X7: for a device that devices.json does not list the page is rendered
    with the codename as the model and without forum link or maintainer. *)
Theorem latest_device_directory_absent (devices : devices_json)
    (manifest : builds_json) (target_device : string)
    (builds : list record) :
  dict_lookup String.eqb target_device manifest = Some builds ->
  Forall has_filename builds ->
  Exists (fun b => py_in (dict_get b "type") ALLOWED_BUILDTYPES = true)
    builds ->
  Forall (other_codename target_device) devices ->
  exists kv files,
    latest_device devices manifest target_device
      = Ok (DevicePage (kv :: files) target_device (VStr target_device)
              VNone VNone).
Proof.
  intros Hman Hall Hex Hdev.
  destruct (latest_device_loop_nonempty builds Hall Hex) as (kv & files & E).
  exists kv, files. unfold latest_device. rewrite Hman, E. run.
  now rewrite (find_device_absent _ _ Hdev).
Qed.

(** X8: a record of devices.json without [codename], standing before any
    record of the device, makes the device page fail with KeyError, though
    the page needs nothing from that record. *)
Theorem latest_device_directory_key_error (pre post : devices_json)
    (d : record) (manifest : builds_json) (target_device : string)
    (builds : list record) :
  dict_lookup String.eqb target_device manifest = Some builds ->
  Forall has_filename builds ->
  Forall (other_codename target_device) pre ->
  d !! "codename" = None ->
  latest_device (pre ++ d :: post) manifest target_device = Raise KeyError.
Proof.
  intros Hman Hall Hpre Hd.
  destruct (latest_device_loop builds [] Hall) as (files & E & _).
  unfold latest_device. rewrite Hman, E. run.
  now rewrite (find_device_no_codename _ _ _ _ Hpre Hd).
Qed.

(** ** The device page: what it returns *)

Lemma page_map_setitem (k : string) (v : value)
    (files : list (string * value)) :
  k ∈ page_keys -> page_map_ok files ->
  page_map_ok (dict_setitem String.eqb k v files).
Proof.
  intros Hk [Hnd Hall]. split; [now apply NoDup_setitem|].
  apply Forall_forall. intros x Hx. apply keys_setitem in Hx as [->|Hx];
    [exact Hk|]. rewrite Forall_forall in Hall. auto.
Qed.

Lemma latest_device_step_keys (files files' : list (string * value))
    (b : record) :
  latest_device_step files b = Ok files' ->
  page_map_ok files -> page_map_ok files'.
Proof.
  unfold latest_device_step. cbv zeta.
  destruct (py_in (dict_get b "type") ALLOWED_BUILDTYPES) eqn:Hin;
    [|now intros [= <-]].
  apply allowed_type in Hin as [-> | ->];
    destruct (truthy (dict_get b "fastboot_images")),
      (truthy (dict_get b "boot_image")),
      (dict_get b "filename"); simpl;
    intros H Hok; try discriminate H; injection H as <-;
    repeat (apply page_map_setitem; [set_solver|]); exact Hok.
Qed.

Lemma latest_device_loop_keys (builds : list record) :
  forall files files',
    for_each latest_device_step builds files = Ok files' ->
    page_map_ok files -> page_map_ok files'.
Proof.
  induction builds as [|b builds IH]; intros files files'.
  - simpl. now intros [= <-].
  - rewrite for_each_cons.
    destruct (latest_device_step files b) as [files1|e] eqn:E;
      [|discriminate].
    run. intros H Hok. eapply IH; [exact H|].
    eapply latest_device_step_keys; eauto.
Qed.

(** X5: a rendered device page is that of the device asked for, its file map
    is not empty, and the keys of the map are distinct and among official,
    official-img, official-boot, gapps, gapps-img and gapps-boot. *)
Theorem latest_device_page_keys (devices : devices_json)
    (manifest : builds_json) (target_device device : string)
    (files : list (string * value)) (model xda maintainer : value) :
  latest_device devices manifest target_device
    = Ok (DevicePage files device model xda maintainer) ->
  device = target_device /\ files <> [] /\
  NoDup files.*1 /\ Forall (fun k => k ∈ page_keys) files.*1.
Proof.
  unfold latest_device.
  destruct (dict_lookup String.eqb target_device manifest) as [builds|];
    [|discriminate].
  destruct (for_each latest_device_step builds []) as [files0|e] eqn:E;
    [|discriminate].
  run. destruct (find_device devices target_device) as [[[x m] mt]|e];
    [|discriminate].
  run. destruct files0 as [|kv files0]; [discriminate|].
  intros [= <- <- <- <- <-].
  destruct (latest_device_loop_keys builds [] _ E) as [Hnd Hall].
  { split; constructor. }
  repeat split; auto.
Qed.

(** X4: the "no build" text is the answer exactly when the device is not a
    key of the manifest; devices.json is not read for it. *)
Theorem latest_device_text_iff (devices : devices_json)
    (manifest : builds_json) (target_device body : string) :
  latest_device devices manifest target_device = Ok (Text body) <->
  dict_lookup String.eqb target_device manifest = None /\
  body = "There isn't any build for " +:+ target_device +:+
         " available here!".
Proof.
  unfold latest_device.
  destruct (dict_lookup String.eqb target_device manifest) as [builds|].
  - split; [|intros [? _]; discriminate].
    destruct (for_each latest_device_step builds []) as [files0|e];
      [|discriminate].
    run. destruct (find_device devices target_device) as [[[x m] mt]|e];
      [|discriminate].
    run. destruct files0; discriminate.
  - split; [intros [= <-]; auto|intros [_ ->]; reflexivity].
Qed.

(** ** The device page: builds without a filename *)

(** X9: a build of an allow-listed type that has a flag set but no string
    under [filename] makes the device page fail with AttributeError, before
    devices.json is read. *)
Theorem latest_device_missing_filename (devices : devices_json)
    (manifest : builds_json) (target_device : string)
    (pre post : list record) (b : record) :
  dict_lookup String.eqb target_device manifest = Some (pre ++ b :: post) ->
  Forall has_filename pre ->
  py_in (dict_get b "type") ALLOWED_BUILDTYPES = true ->
  (forall f, dict_get b "filename" <> VStr f) ->
  truthy (dict_get b "fastboot_images") = true \/
  truthy (dict_get b "boot_image") = true ->
  latest_device devices manifest target_device = Raise AttributeError.
Proof.
  intros Hman Hpre Hin Hname Hflag.
  destruct (latest_device_loop pre [] Hpre) as (files0 & E0 & _).
  assert (latest_device_step files0 b = Raise AttributeError) as Eb.
  { unfold latest_device_step. cbv zeta. rewrite Hin.
    apply allowed_type in Hin as [-> | ->];
      destruct (truthy (dict_get b "fastboot_images")),
        (truthy (dict_get b "boot_image")),
        (dict_get b "filename") as [| | |f];
      try reflexivity; try (now destruct (Hname f));
      destruct Hflag; discriminate. }
  unfold latest_device. rewrite Hman, for_each_app, E0. run.
  now rewrite for_each_cons, Eb.
Qed.

(** X10: without a flag the same build does no harm: None is listed under
    its type (when no later build has that type). *)
Theorem latest_device_none_filename (devices : devices_json)
    (manifest : builds_json) (target_device : string)
    (pre post : list record) (b : record) (t : string)
    (xda model maintainer : value) :
  dict_lookup String.eqb target_device manifest = Some (pre ++ b :: post) ->
  Forall has_filename pre -> Forall has_filename post ->
  b !! "type" = Some (VStr t) ->
  py_in (VStr t) ALLOWED_BUILDTYPES = true ->
  b !! "filename" = None ->
  truthy (dict_get b "fastboot_images") = false ->
  truthy (dict_get b "boot_image") = false ->
  Forall (fun b' => dict_get b' "type" <> VStr t) post ->
  find_device devices target_device = Ok (xda, model, maintainer) ->
  exists files,
    latest_device devices manifest target_device
      = Ok (DevicePage files target_device model xda maintainer) /\
    dict_lookup String.eqb t files = Some VNone.
Proof.
  intros Hman Hpre Hpost Ht Hin Hname Hfb Hboot Hother Hdev.
  apply dict_get_Some in Ht.
  destruct (latest_device_loop pre [] Hpre) as (files0 & E0 & _).
  assert (latest_device_step files0 b
          = Ok (dict_setitem String.eqb t VNone files0)) as Eb.
  { unfold latest_device_step, dict_get in *. cbv zeta.
    rewrite Hname in *. rewrite Ht, Hin, Hfb, Hboot. reflexivity. }
  destruct (latest_device_loop post (dict_setitem String.eqb t VNone files0)
              Hpost) as (files & E & Hkeep & Hframe).
  assert (dict_lookup String.eqb t files = Some VNone) as Hl.
  { rewrite Hframe; [apply lookup_setitem_eq|].
    eapply Forall_impl; [exact Hother|].
    intros b' Hb'. now apply untouched_other_type. }
  exists files. split; [|exact Hl].
  unfold latest_device. rewrite Hman, for_each_app, E0. run.
  rewrite for_each_cons, Eb. run. rewrite E. run. rewrite Hdev. run.
  destruct files; [discriminate|reflexivity].
Qed.

(** ** The OTA route: what it returns *)

Lemma get_latest_scan_result (builds : list record) (romtype : string)
    (rom : record) :
  get_latest_scan builds romtype = Ok rom ->
  rom = ∅ \/ (rom ∈ builds /\ rom !! "type" = Some (VStr romtype)).
Proof.
  induction builds as [|b builds IH]; simpl.
  - intros [= <-]. now left.
  - unfold getitem. destruct (b !! "type") as [t|] eqn:Et; [|discriminate].
    run. destruct (py_eqb t (VStr romtype)) eqn:E.
    + intros [= <-]. apply py_eqb_str in E as ->. right.
      split; [apply elem_of_cons; now left|exact Et].
    + intros H. destruct (IH H) as [->|[Hin Hty]]; [now left|].
      right. split; [apply elem_of_cons; now right|exact Hty].
Qed.

Lemma get_latest_result (devices : devices_json) (manifest : builds_json)
    (device romtype : string) (rom : record) :
  get_latest devices manifest device romtype = Ok rom ->
  rom = ∅ \/
  exists builds,
    dict_lookup String.eqb device manifest = Some builds /\
    rom ∈ builds /\ rom !! "type" = Some (VStr romtype).
Proof.
  unfold get_latest. destruct (get_devices devices) as [devs|e];
    [|discriminate].
  run. destruct (dict_contains py_eqb (VStr device) devs); simpl;
    [|intros [= <-]; now left].
  destruct (dict_lookup String.eqb device manifest) as [builds|];
    [|discriminate].
  intros H. apply get_latest_scan_result in H as [->|H]; eauto.
Qed.

Section ota_results.
Variable DOWNLOAD_BASE_URL : string.
Variable arrow_timestamp : value -> result Z.

(** What a successful answer of the OTA route is made of. *)
Lemma ota_response_inv (devices : devices_json)
    (manifest : builds_json) (device romtype : string) (resp : response) :
  ota DOWNLOAD_BASE_URL arrow_timestamp devices manifest device romtype
    = Ok resp ->
  resp = Jsonify [] \/
  exists (r b : record) (builds : list record) (path : string),
    resp = Jsonify [r] /\
    dict_lookup String.eqb device manifest = Some builds /\
    b ∈ builds /\
    b !! "type" = Some (VStr romtype) /\
    r !! "romtype" = Some (VStr romtype) /\
    r !! "id" = b !! "sha256" /\
    r !! "version" = b !! "version" /\
    r !! "filename" = b !! "filename" /\
    r !! "size" = b !! "size" /\
    r !! "url" = Some (VStr (DOWNLOAD_BASE_URL +:+ path)) /\
    dom r = list_to_set
      ["id"; "url"; "romtype"; "datetime"; "version"; "filename"; "size"].
Proof.
  unfold ota.
  destruct (get_latest devices manifest device romtype) as [rom|e] eqn:E;
    [|discriminate].
  run. destruct (bool_decide (rom = ∅)) eqn:Hrom; [intros [= <-]; now left|].
  apply bool_decide_eq_false_1 in Hrom.
  apply get_latest_result in E as [->|(builds & Hman & Hin & Hty)];
    [contradiction|].
  unfold getitem.
  destruct (rom !! "sha256") as [sha|] eqn:E1; [|discriminate]. run.
  destruct (rom !! "filepath") as [fp|] eqn:E2; [|discriminate]. run.
  destruct (rom !! "filename") as [fn|] eqn:E3; [|discriminate]. run.
  rewrite Hty. run.
  destruct (rom !! "date") as [date|] eqn:E4; [|discriminate]. run.
  destruct (arrow_timestamp date) as [ts|e]; [|discriminate]. run.
  destruct (rom !! "version") as [ver|] eqn:E5; [|discriminate]. run.
  destruct (rom !! "size") as [size|] eqn:E6; [|discriminate]. run.
  intros [= <-]. right.
  eexists _, rom, builds, (py_str fp +:+ py_str fn).
  split; [reflexivity|]. repeat split; auto.
Qed.

(** X13: an answer of the OTA route is either the empty list or one record;
    the record has the seven keys, its id, version, filename and size are
    those of a build of the manifest's list for the device asked for, of the
    type asked for, and its url begins with the base URL. *)
Theorem ota_response_shape (devices : devices_json)
    (manifest : builds_json) (device romtype : string) (resp : response) :
  ota DOWNLOAD_BASE_URL arrow_timestamp devices manifest device romtype
    = Ok resp ->
  resp = Jsonify [] \/
  exists (r b : record) (builds : list record) (path : string),
    resp = Jsonify [r] /\
    dict_lookup String.eqb device manifest = Some builds /\
    b ∈ builds /\
    b !! "type" = Some (VStr romtype) /\
    r !! "romtype" = Some (VStr romtype) /\
    r !! "id" = b !! "sha256" /\
    r !! "version" = b !! "version" /\
    r !! "filename" = b !! "filename" /\
    r !! "size" = b !! "size" /\
    r !! "url" = Some (VStr (DOWNLOAD_BASE_URL +:+ path)) /\
    dom r = list_to_set
      ["id"; "url"; "romtype"; "datetime"; "version"; "filename"; "size"].
Proof. apply ota_response_inv. Qed.

(** X14: a build before the first match that has no [type] makes the OTA
    route fail with KeyError, whereas the loop of the device page passes
    over such a build. *)
Theorem ota_missing_type (devices : devices_json) (manifest : builds_json)
    (device romtype : string) (devs : list (value * value))
    (pre post : list record) (b : record) :
  get_devices devices = Ok devs ->
  dict_contains py_eqb (VStr device) devs = true ->
  dict_lookup String.eqb device manifest = Some (pre ++ b :: post) ->
  Forall (other_type romtype) pre ->
  b !! "type" = None ->
  ota DOWNLOAD_BASE_URL arrow_timestamp devices manifest device romtype
    = Raise KeyError /\
  forall files, latest_device_step files b = Ok files.
Proof.
  intros Hdevs Hin Hman Hpre Hb. split.
  - assert (get_latest_scan (pre ++ b :: post) romtype = Raise KeyError)
      as Hscan.
    { clear Hman. induction Hpre as [|b' bs (t & Ht & Hne) _ IH]; simpl.
      - unfold getitem. now rewrite Hb.
      - run. now rewrite py_eqb_str_false. }
    unfold ota, get_latest. rewrite Hdevs. run. rewrite Hin. simpl.
    now rewrite Hman, Hscan.
  - intros files. apply latest_device_step_skip.
    unfold dict_get. now rewrite Hb.
Qed.

(** X15: the fields of the answer are read in the order of the source and
    the first failure is the route's.  When the first build of the type
    lacks sha256, filepath, filename or date the route fails with KeyError,
    whatever the date's parser would do.  With these four there, an error
    of the date's parser is the route's error, whether version and size
    are there or not.  With the date read, a missing version or size is a
    KeyError. *)
Theorem ota_missing_field (devices : devices_json) (manifest : builds_json)
    (device romtype : string) (devs : list (value * value))
    (pre post : list record) (b : record) :
  get_devices devices = Ok devs ->
  dict_contains py_eqb (VStr device) devs = true ->
  dict_lookup String.eqb device manifest = Some (pre ++ b :: post) ->
  Forall (other_type romtype) pre ->
  b !! "type" = Some (VStr romtype) ->
  let answer :=
    ota DOWNLOAD_BASE_URL arrow_timestamp devices manifest device romtype in
  (forall k, k ∈ ["sha256"; "filepath"; "filename"; "date"] ->
             b !! k = None -> answer = Raise KeyError) /\
  (forall date,
     Forall (fun k => is_Some (b !! k)) ["sha256"; "filepath"; "filename"] ->
     b !! "date" = Some date ->
     (forall e, arrow_timestamp date = Raise e -> answer = Raise e) /\
     (forall ts k, arrow_timestamp date = Ok ts ->
                   k ∈ ["version"; "size"] -> b !! k = None ->
                   answer = Raise KeyError)).
Proof.
  intros Hdevs Hin Hman Hpre Htype answer. subst answer.
  unfold ota, get_latest. rewrite Hdevs. run. rewrite Hin. simpl.
  rewrite Hman, (get_latest_scan_first _ _ _ _ Hpre Htype). run.
  rewrite bool_decide_eq_false_2
    by (intros ->; rewrite lookup_empty in Htype; discriminate).
  unfold getitem. rewrite Htype. split.
  - intros k Hk Hnone.
    destruct (b !! "sha256") as [sha|] eqn:E1; [|reflexivity]. run.
    destruct (b !! "filepath") as [fp|] eqn:E2; [|reflexivity]. run.
    destruct (b !! "filename") as [fn|] eqn:E3; [|reflexivity]. run.
    destruct (b !! "date") as [date|] eqn:E4; [|reflexivity].
    exfalso. repeat (apply elem_of_cons in Hk as [->|Hk]; [congruence|]).
    now apply elem_of_nil in Hk.
  - intros date Hthree Hdate.
    apply Forall_cons in Hthree as [[sha ->] Hthree].
    apply Forall_cons in Hthree as [[fp ->] Hthree].
    apply Forall_cons in Hthree as [[fn Hfn] _].
    rewrite Hfn, Hdate. run. split.
    + intros e ->. reflexivity.
    + intros ts k -> Hk Hnone. run.
      destruct (b !! "version") as [ver|] eqn:E5; [|reflexivity]. run.
      destruct (b !! "size") as [size|] eqn:E6; [|reflexivity].
      exfalso. repeat (apply elem_of_cons in Hk as [->|Hk]; [congruence|]).
      now apply elem_of_nil in Hk.
Qed.

(** X16: an allow-listed type for which the OTA route returns a build is a
    key of the device page's map. *)
Theorem ota_build_on_page (devices : devices_json) (manifest : builds_json)
    (device romtype : string) (r : record) (builds : list record)
    (xda model maintainer : value) :
  ota DOWNLOAD_BASE_URL arrow_timestamp devices manifest device romtype
    = Ok (Jsonify [r]) ->
  py_in (VStr romtype) ALLOWED_BUILDTYPES = true ->
  dict_lookup String.eqb device manifest = Some builds ->
  Forall has_filename builds ->
  find_device devices device = Ok (xda, model, maintainer) ->
  exists files,
    latest_device devices manifest device
      = Ok (DevicePage files device model xda maintainer) /\
    is_Some (dict_lookup String.eqb romtype files).
Proof.
  intros Hota Hallow Hman Hall Hdev.
  apply ota_response_inv in Hota
    as [?|(r' & b & builds' & path & _ & Hman' & Hin & Hty & _)];
    [discriminate|].
  rewrite Hman in Hman'. injection Hman' as <-.
  apply list_elem_of_split in Hin as (pre & post & ->).
  apply Forall_app in Hall as [Hpre Hbp].
  apply Forall_cons in Hbp as [[f Hf] Hpost].
  apply dict_get_Some in Hty, Hf.
  destruct (latest_device_loop pre [] Hpre) as (files0 & E0 & _ & _).
  destruct (latest_device_step_entries files0 b romtype f Hty Hallow Hf)
    as (files1 & E1 & Lt & _).
  destruct (latest_device_loop post files1 Hpost) as (files & E & Hkeep & _).
  assert (is_Some (dict_lookup String.eqb romtype files)) as Hkey
    by (apply Hkeep; rewrite Lt; eauto).
  exists files. split; [|exact Hkey].
  unfold latest_device. rewrite Hman, for_each_app, E0. run.
  rewrite for_each_cons, E1. run. rewrite E. run. rewrite Hdev. run.
  destruct files; [|reflexivity]. destruct Hkey; discriminate.
Qed.
End ota_results.

(** ** The index page: the devices it lists *)

Lemma py_eqb_str_l (c : string) (k : value) :
  py_eqb (VStr c) k = true <-> k = VStr c.
Proof.
  rewrite py_eqb_key. simpl. destruct k as [|[]|n|s]; simpl;
    split; intros H; try discriminate; congruence.
Qed.

Lemma add_device_lookup (c : string) (k : value)
    (devs : list (value * value)) :
  dict_lookup py_eqb k (add_device c devs) =
    match dict_lookup py_eqb k devs with
    | Some v => Some v
    | None => if py_eqb (VStr c) k then Some (VStr c) else None
    end.
Proof.
  unfold add_device, dict_contains.
  destruct (dict_lookup py_eqb (VStr c) devs) as [v|] eqn:Ec; cbn [negb].
  - destruct (dict_lookup py_eqb k devs) eqn:Ek; [reflexivity|].
    destruct (py_eqb (VStr c) k) eqn:E; [|reflexivity].
    apply py_eqb_str_l in E as ->. congruence.
  - destruct (py_eqb (VStr c) k) eqn:E.
    + apply py_eqb_str_l in E as ->.
      now rewrite py_lookup_setitem_eq, Ec.
    + rewrite py_lookup_setitem_ne by assumption.
      now destruct (dict_lookup py_eqb k devs).
Qed.

Lemma show_files_loop_devices (names : list string) :
  forall devs bd devs' bd',
    for_each show_files_step (VStr <$> names) (devs, bd) = Ok (devs', bd') ->
    (forall k v, dict_lookup py_eqb k devs = Some v ->
                 dict_lookup py_eqb k devs' = Some v) /\
    (forall zip c d, zip ∈ names -> fields_of zip = Some (c, d) ->
       dict_lookup py_eqb (VStr c) devs' = Some (shown_name devs c)) /\
    (forall k, is_Some (dict_lookup py_eqb k devs') ->
       is_Some (dict_lookup py_eqb k devs) \/
       exists zip c d, zip ∈ names /\ fields_of zip = Some (c, d) /\
                       k = VStr c).
Proof.
  induction names as [|z names IH]; intros devs bd devs' bd'.
  - simpl. intros [= <- <-]. split; [auto|]. split; [|auto].
    intros zip c d Hin. now apply elem_of_nil in Hin.
  - rewrite fmap_cons, for_each_cons.
    destruct (fields_of z) as [[cz dz]|] eqn:Ez.
    + rewrite (show_files_step_fields _ _ _ _ _ Ez). run. intros H.
      destruct (IH _ _ _ _ H) as (Hkeep & Hnames & Honly).
      assert (forall k v, dict_lookup py_eqb k devs = Some v ->
                dict_lookup py_eqb k (add_device cz devs) = Some v) as Hadd.
      { intros k v Hk. now rewrite add_device_lookup, Hk. }
      split; [auto|]. split.
      * intros zip c d Hin Hzip.
        assert (dict_lookup py_eqb (VStr c) (add_device cz devs)
                = Some (shown_name devs c) ->
                dict_lookup py_eqb (VStr c) devs'
                = Some (shown_name devs c)) as Hstep by auto.
        apply elem_of_cons in Hin as [->|Hin].
        -- apply Hstep. rewrite Ez in Hzip. injection Hzip as -> ->.
           rewrite add_device_lookup. unfold shown_name.
           destruct (dict_lookup py_eqb (VStr c) devs); [reflexivity|].
           now rewrite py_eqb_refl.
        -- rewrite (Hnames zip c d Hin Hzip). f_equal.
           unfold shown_name. rewrite add_device_lookup.
           destruct (dict_lookup py_eqb (VStr c) devs); [reflexivity|].
           destruct (py_eqb (VStr cz) (VStr c)) eqn:E; [|reflexivity].
           apply py_eqb_str_l in E. congruence.
      * intros k Hk. destruct (Honly k Hk) as [Hk'|(zip & c & d & Hin & Hz & ->)].
        -- rewrite add_device_lookup in Hk'.
           destruct (dict_lookup py_eqb k devs); [left; eauto|].
           destruct (py_eqb (VStr cz) k) eqn:E; [|now destruct Hk'].
           apply py_eqb_str_l in E as ->. right.
           exists z, cz, dz. split; [apply elem_of_cons; now left|auto].
        -- right. exists zip, c, d.
           split; [apply elem_of_cons; now right|auto].
    + now rewrite (show_files_step_short _ _ _ Ez).
Qed.

Lemma lookup_elem {V : Type} (k : string) (v : V) (d : list (string * V)) :
  dict_lookup String.eqb k d = Some v -> (k, v) ∈ d.
Proof.
  induction d as [|[k' v'] d IH]; simpl; [discriminate|].
  destruct (String.eqb_spec k' k) as [->|Hne].
  - intros [= ->]. apply elem_of_cons. now left.
  - intros H. apply elem_of_cons. right. auto.
Qed.

Lemma elem_lookup {V : Type} (k : string) (v : V) (d : list (string * V)) :
  NoDup d.*1 -> (k, v) ∈ d -> dict_lookup String.eqb k d = Some v.
Proof.
  induction d as [|[k' v'] d IH]; simpl; intros Hnd Hin.
  - now apply elem_of_nil in Hin.
  - apply NoDup_cons in Hnd as [Hk' Hnd].
    apply elem_of_cons in Hin as [[= -> ->]|Hin].
    + now rewrite String.eqb_refl.
    + destruct (String.eqb_spec k' k) as [->|Hne]; [|auto].
      exfalso. apply Hk'. apply list_elem_of_fmap. now exists (k, v).
Qed.

Lemma is_latest_greatest (names : list string) (c m : string) :
  is_latest (dates_of c names) (Some m) -> greatest_date names c m.
Proof.
  intros [Hin Hall]. split; [now apply elem_of_dates_of|].
  intros zip' d' Hz Hf. apply gtb_false_le.
  rewrite Forall_forall in Hall. apply Hall, elem_of_dates_of. eauto.
Qed.

Lemma greatest_date_unique (names : list string) (c m m' : string) :
  greatest_date names c m -> greatest_date names c m' -> m = m'.
Proof.
  intros [(z & Hz & Hf) Hmax] [(z' & Hz' & Hf') Hmax'].
  apply (anti_symm String.le); apply gtb_false_le; eauto.
Qed.

Lemma strptime_raises (s : string) (e : exn) :
  strptime s = Raise e -> e = ValueError.
Proof.
  unfold strptime. destruct (re_match s) as [[[[y m] d] rest]|];
    [|congruence].
  destruct (negb (String.eqb rest "")); [congruence|].
  destruct (valid y m d); congruence.
Qed.

Lemma format_dates_fails (pre todo : list (string * string)) :
  NoDup (pre ++ todo).*1 ->
  Exists (fun kv => forall day, strptime kv.2 <> Ok day) todo ->
  for_each
    (fun acc '(date, _) =>
       match dict_lookup String.eqb date acc with
       | Some s =>
           d ← Datetime.strptime s;
           Ok (dict_setitem String.eqb date (Datetime.strftime d) acc)
       | None => Raise KeyError
       end) todo (pre ++ todo)
  = Raise ValueError.
Proof.
  revert pre. induction todo as [|[k v] todo IH]; intros pre Hnd Hex.
  - now apply Exists_nil in Hex.
  - rewrite for_each_cons.
    pose proof Hnd as Hnd'. rewrite fmap_app in Hnd'. simpl in Hnd'.
    assert (k ∉ pre.*1) as Hk.
    { apply NoDup_app in Hnd' as (_ & Hdisj & _). intros Hin.
      apply (Hdisj k Hin). apply elem_of_cons. now left. }
    rewrite lookup_app_notin by assumption. simpl.
    rewrite String.eqb_refl.
    destruct (strptime v) as [day|e] eqn:Ev.
    + run. rewrite setitem_app_notin by assumption. simpl.
      rewrite String.eqb_refl.
      apply Exists_cons in Hex as [Hbad|Hex]; [now destruct (Hbad day)|].
      specialize (IH (pre ++ [(k, strftime day)])).
      rewrite <- !app_assoc in IH. simpl in IH. apply IH; [|exact Hex].
      rewrite fmap_app. simpl. exact Hnd'.
    + apply strptime_raises in Ev as ->. reflexivity.
Qed.

Lemma format_dates_raises (bd : list (string * string)) :
  NoDup bd.*1 ->
  Exists (fun kv => forall day, strptime kv.2 <> Ok day) bd ->
  format_dates bd = Raise ValueError.
Proof. intros Hnd Hex. exact (format_dates_fails [] bd Hnd Hex). Qed.

Lemma show_files_fields_only (names : list string) :
  Forall (fun zip => is_Some (fields_of zip)) names ->
  Forall (fun zip => exists c d, fields_of zip = Some (c, d) /\ True) names.
Proof.
  intros H. eapply Forall_impl; [exact H|].
  intros zip [[c d] Hz]. eauto.
Qed.

(** X17: the devices the index page lists are those of the directory, under
    the names it gives them, and the codenames of the filenames, each under
    the directory's name or else under the codename itself; a codename that
    has a date is listed. *)
Theorem show_files_devices (devices : devices_json) (manifest : builds_json)
    (devs devs' : list (value * value)) (names : list string)
    (build_dates : list (string * string)) :
  get_devices devices = Ok devs ->
  get_zips manifest = Ok (VStr <$> names) ->
  show_files devices manifest = Ok (LatestPage devs' build_dates) ->
  (forall k v, dict_lookup py_eqb k devs = Some v ->
               dict_lookup py_eqb k devs' = Some v) /\
  (forall zip c d, zip ∈ names -> fields_of zip = Some (c, d) ->
     dict_lookup py_eqb (VStr c) devs' = Some (shown_name devs c)) /\
  (forall k, is_Some (dict_lookup py_eqb k devs') ->
     is_Some (dict_lookup py_eqb k devs) \/
     exists zip c d, zip ∈ names /\ fields_of zip = Some (c, d) /\
                     k = VStr c).
Proof.
  intros Hdevs Hzips. unfold show_files. rewrite Hzips, Hdevs. run.
  destruct (for_each show_files_step (VStr <$> names) (devs, []))
    as [[devs1 bd1]|e] eqn:E; [|discriminate].
  run. destruct (format_dates bd1) as [bd2|e]; [|discriminate].
  run. intros [= <- <-]. eapply show_files_loop_devices; eauto.
Qed.

(** X18: the index page succeeds as soon as the greatest date of every
    codename parses, whatever the other date fields hold; it then has a
    date for exactly the codenames of the filenames, the greatest one
    printed. *)
Theorem show_files_greatest_parses (devices : devices_json)
    (manifest : builds_json) (devs : list (value * value))
    (names : list string) :
  get_devices devices = Ok devs ->
  get_zips manifest = Ok (VStr <$> names) ->
  Forall (fun zip => is_Some (fields_of zip)) names ->
  (forall c d, greatest_date names c d -> exists day, strptime d = Ok day) ->
  exists devs' build_dates,
    show_files devices manifest = Ok (LatestPage devs' build_dates) /\
    NoDup build_dates.*1 /\
    forall c shown,
      dict_lookup String.eqb c build_dates = Some shown <->
      exists d day, greatest_date names c d /\ strptime d = Ok day /\
                    shown = strftime day.
Proof.
  intros Hdevs Hzips Hnames Hparse.
  destruct (show_files_loop (fun _ => True) names
              (show_files_fields_only _ Hnames) [] devs [])
    as (devs' & bd & Eloop & Hnd & _ & Hinv).
  { constructor. } { constructor. } { intros c. reflexivity. }
  simpl in Hinv.
  assert (Forall (fun kv => exists day, strptime kv.2 = Ok day) bd) as Hall.
  { apply Forall_forall. intros [k v] Hin. simpl.
    apply (Hparse k). apply is_latest_greatest.
    rewrite <- (elem_lookup k v bd Hnd Hin). apply Hinv. }
  exists devs', (prod_map id reformat <$> bd). split; [|split].
  - unfold show_files. rewrite Hzips, Hdevs. run. rewrite Eloop. run.
    now rewrite (format_dates_map bd Hnd Hall).
  - rewrite <- list_fmap_compose.
    erewrite list_fmap_ext; [exact Hnd|]. now intros i [k v].
  - intros c shown. rewrite lookup_reformat.
    specialize (Hinv c).
    destruct (dict_lookup String.eqb c bd) as [m|] eqn:Em; simpl.
    + apply is_latest_greatest in Hinv.
      destruct (Hparse c m Hinv) as [day Hday].
      unfold reformat. rewrite Hday. split.
      * intros [= <-]. eauto.
      * intros (d & day' & Hg & Hd & ->).
        rewrite (greatest_date_unique _ _ _ _ Hg Hinv) in Hd. congruence.
    + split; [discriminate|].
      intros (d & day & [(zip & Hz & Hf) _] & _).
      assert (d ∈ dates_of c names) as Hd
        by (apply elem_of_dates_of; eauto).
      rewrite Hinv in Hd. now apply elem_of_nil in Hd.
Qed.

(** X19: when the greatest date of some codename does not parse, the index
    page fails with ValueError. *)
Theorem show_files_bad_date (devices : devices_json)
    (manifest : builds_json) (devs : list (value * value))
    (names : list string) (c d : string) :
  get_devices devices = Ok devs ->
  get_zips manifest = Ok (VStr <$> names) ->
  Forall (fun zip => is_Some (fields_of zip)) names ->
  greatest_date names c d ->
  (forall day, strptime d <> Ok day) ->
  show_files devices manifest = Raise ValueError.
Proof.
  intros Hdevs Hzips Hnames Hg Hbad.
  destruct (show_files_loop (fun _ => True) names
              (show_files_fields_only _ Hnames) [] devs [])
    as (devs' & bd & Eloop & Hnd & _ & Hinv).
  { constructor. } { constructor. } { intros c'. reflexivity. }
  simpl in Hinv. specialize (Hinv c).
  destruct (dict_lookup String.eqb c bd) as [m|] eqn:Em.
  - apply is_latest_greatest in Hinv.
    rewrite (greatest_date_unique _ _ _ _ Hinv Hg) in Em.
    apply lookup_elem in Em.
    unfold show_files. rewrite Hzips, Hdevs. run. rewrite Eloop. run.
    rewrite (format_dates_raises bd Hnd); [reflexivity|].
    apply Exists_exists. exists (c, d). split; [exact Em|exact Hbad].
  - destruct Hg as [(zip & Hz & Hf) _].
    assert (d ∈ dates_of c names) as Hd by (apply elem_of_dates_of; eauto).
    simpl in Hinv. rewrite Hinv in Hd. now apply elem_of_nil in Hd.
Qed.

(** X20: a filename that is not a string makes the index page fail with
    TypeError when the filenames before it have their five fields. *)
Theorem show_files_filename_not_string (devices : devices_json)
    (manifest : builds_json) (devs : list (value * value))
    (names : list string) (v : value) (rest : list value) :
  get_devices devices = Ok devs ->
  get_zips manifest = Ok ((VStr <$> names) ++ v :: rest) ->
  Forall (fun zip => is_Some (fields_of zip)) names ->
  (forall s, v <> VStr s) ->
  show_files devices manifest = Raise TypeError.
Proof.
  intros Hdevs Hzips Hnames Hv.
  destruct (show_files_loop (fun _ => True) names
              (show_files_fields_only _ Hnames) [] devs [])
    as (devs' & bd & Eloop & _).
  { constructor. } { constructor. } { intros c'. reflexivity. }
  unfold show_files. rewrite Hzips, Hdevs. run.
  rewrite for_each_app, Eloop. run. rewrite for_each_cons.
  destruct v as [| | |s]; try reflexivity. now destruct (Hv s).
Qed.

Lemma getitem_None' (d : record) (k : string) :
  d !! k = None -> getitem d k = Raise KeyError.
Proof. intros H. unfold getitem. now rewrite H. Qed.

Lemma comprehension_missing (builds : list record) :
  Exists (fun b => b !! "filename" = None) builds ->
  comprehension (fun build => getitem build "filename") builds
    = Raise KeyError.
Proof.
  induction 1 as [b builds Hb|b builds _ IH];
    cbn [comprehension].
  - rewrite (getitem_None' _ _ Hb). reflexivity.
  - destruct (getitem b "filename") as [v|e] eqn:E.
    + run. now rewrite IH.
    + unfold getitem in E.
      destruct (b !! "filename"); [discriminate|].
      injection E as <-. reflexivity.
Qed.

(** X21: one build without [filename], of whatever device, makes the index
    page fail with KeyError. *)
Theorem show_files_missing_filename (devices : devices_json)
    (manifest : builds_json) :
  Exists (fun b => b !! "filename" = None) (flat_map snd manifest) ->
  get_zips manifest = Raise KeyError /\
  show_files devices manifest = Raise KeyError.
Proof.
  intros H. apply comprehension_missing in H.
  unfold show_files, get_zips. rewrite H. auto.
Qed.

(** ** The changelog routes: what they return *)


(** X23: for a device name without a slash the per-device route asks for
    [<base>/changelog] and then for [<base>/<device>/changelog], in this
    order and in every case; when the second answer is a 200 the text
    returned has no newline left. *)
Theorem changelog_device_requests (upstream : string -> http_response)
    (device : string) (log : list string) :
  device <> "" -> Str.count "/" device = O ->
  let global_url := changelog_base_url +:+ "/changelog" in
  let device_url :=
    changelog_base_url +:+ "/" +:+ device +:+ "/changelog" in
  snd (changelog_device upstream device log)
    = log ++ [global_url; device_url] /\
  (status_code (upstream device_url) = 200 ->
   exists body,
     fst (changelog_device upstream device log) = Text body /\
     Str.count "010" body = O).
Proof.
  intros Hne Hslash global_url device_url.
  assert (join changelog_base_url ["changelog"] = global_url) as Eg
    by reflexivity.
  assert (join changelog_base_url [device; "changelog"] = device_url) as Ed.
  { unfold join. cbn [fold_left].
    assert (Str.startswith "/" device = false) as ->.
    { destruct device as [|a d]; [reflexivity|]. rewrite count_cons in Hslash.
      simpl. destruct (Ascii.eqb a "/"); [discriminate|reflexivity]. }
    change (Str.startswith "/" "changelog") with false.
    change (String.eqb changelog_base_url "" ||
            Str.endswith "/" changelog_base_url) with false.
    cbv iota.
    assert (Str.endswith "/" (changelog_base_url +:+ "/" +:+ device) = false)
      as ->.
    { rewrite endswith_app.
      - rewrite (endswith_app "/" "/" device Hne).
        now apply endswith_count.
      - discriminate. }
    rewrite orb_false_r.
    assert (String.eqb (changelog_base_url +:+ "/" +:+ device) "" = false)
      as -> by reflexivity.
    unfold device_url. now rewrite <- !str_app_assoc. }
  unfold changelog_device. rewrite Eg, Ed.
  unfold mbind, http_bind, mret, http_ret, requests_get.
  rewrite <- app_assoc. simpl. split.
  - now destruct (status_code (upstream device_url) =? 200).
  - intros ->. simpl. eexists. split; [reflexivity|].
    apply replace_newline_count.
Qed.

(** ** The device page: the names made from the filename *)

Lemma replace_absent (old new s : string) :
  occurs old s = false -> Str.replace old new s = s.
Proof.
  unfold Str.replace. induction s as [|c s IH]; [reflexivity|].
  cbn [occurs Str.replace_from]. intros H.
  apply orb_false_iff in H as [-> H]. now rewrite (IH H).
Qed.

Lemma prefix_zip_short (c : ascii) (s : string) :
  String.prefix ".zip" (String c (s +:+ ".zip"))
    = String.prefix ".zip" (String c (s +:+ ".zi")).
Proof.
  destruct s as [|x [|y [|z r]]]; rewrite ?str_app_cons, ?str_app_nil_l;
    cbn [String.prefix];
    repeat match goal with
      | |- context [ascii_dec ?a ?b] => destruct (ascii_dec a b)
      end; rewrite ?prefix_empty; try reflexivity; try discriminate.
Qed.

Lemma replace_zip_suffix (new stem : string) :
  occurs ".zip" (stem +:+ ".zi") = false ->
  Str.replace ".zip" new (stem +:+ ".zip") = stem +:+ new.
Proof.
  unfold Str.replace. induction stem as [|c s IH].
  - intros _. rewrite !str_app_nil_l. cbn. apply str_app_nil_r.
  - rewrite !str_app_cons. cbn [occurs]. intros H.
    apply orb_false_iff in H as [Hp H].
    cbn [Str.replace_from]. rewrite prefix_zip_short, Hp.
    now rewrite (IH H).
Qed.

Lemma latest_device_last_build (devices : devices_json)
    (manifest : builds_json) (target_device : string)
    (pre : list record) (b : record) (t f : string)
    (xda model maintainer : value) :
  dict_lookup String.eqb target_device manifest = Some (pre ++ [b]) ->
  Forall has_filename pre ->
  b !! "type" = Some (VStr t) ->
  py_in (VStr t) ALLOWED_BUILDTYPES = true ->
  b !! "filename" = Some (VStr f) ->
  find_device devices target_device = Ok (xda, model, maintainer) ->
  exists files,
    latest_device devices manifest target_device
      = Ok (DevicePage files target_device model xda maintainer) /\
    dict_lookup String.eqb t files = Some (VStr f) /\
    (truthy (dict_get b "fastboot_images") = true ->
     dict_lookup String.eqb (t +:+ "-img") files
       = Some (VStr (Str.replace ".zip" "-img.zip" f))) /\
    (truthy (dict_get b "boot_image") = true ->
     dict_lookup String.eqb (t +:+ "-boot") files
       = Some (VStr (Str.replace ".zip" "-boot.img" f))).
Proof.
  intros Hman Hpre Ht Hin Hf Hdev. apply dict_get_Some in Ht, Hf.
  destruct (latest_device_loop pre [] Hpre) as (files0 & E0 & _ & _).
  destruct (latest_device_step_entries files0 b t f Ht Hin Hf)
    as (files & E1 & Lt & Limg & Lboot).
  exists files. split; [|auto].
  unfold latest_device. rewrite Hman, for_each_app, E0. run.
  rewrite for_each_cons, E1. run. cbn [for_each]. run. rewrite Hdev. run.
  destruct files; [discriminate|reflexivity].
Qed.

(** X11: when the last build of a device, of an allow-listed type with both
    flags set, is named [<stem>.zip] and [.zip] occurs nowhere else in the
    name, the page lists [<stem>-img.zip] under type-img and
    [<stem>-boot.img] under type-boot. *)
Theorem latest_device_image_names (devices : devices_json)
    (manifest : builds_json) (target_device : string)
    (pre : list record) (b : record) (t stem : string)
    (xda model maintainer : value) :
  dict_lookup String.eqb target_device manifest = Some (pre ++ [b]) ->
  Forall has_filename pre ->
  b !! "type" = Some (VStr t) ->
  py_in (VStr t) ALLOWED_BUILDTYPES = true ->
  b !! "filename" = Some (VStr (stem +:+ ".zip")) ->
  occurs ".zip" (stem +:+ ".zi") = false ->
  truthy (dict_get b "fastboot_images") = true ->
  truthy (dict_get b "boot_image") = true ->
  find_device devices target_device = Ok (xda, model, maintainer) ->
  exists files,
    latest_device devices manifest target_device
      = Ok (DevicePage files target_device model xda maintainer) /\
    dict_lookup String.eqb t files = Some (VStr (stem +:+ ".zip")) /\
    dict_lookup String.eqb (t +:+ "-img") files
      = Some (VStr (stem +:+ "-img.zip")) /\
    dict_lookup String.eqb (t +:+ "-boot") files
      = Some (VStr (stem +:+ "-boot.img")).
Proof.
  intros Hman Hpre Ht Hin Hf Hzip Hfb Hboot Hdev.
  destruct (latest_device_last_build devices manifest target_device pre b
              t _ xda model maintainer Hman Hpre Ht Hin Hf Hdev)
    as (files & E & Lt & Limg & Lboot).
  specialize (Limg Hfb). specialize (Lboot Hboot).
  rewrite (replace_zip_suffix _ stem Hzip) in Limg.
  rewrite (replace_zip_suffix _ stem Hzip) in Lboot.
  exists files. auto.
Qed.

(** X12: when [.zip] does not occur in the filename of that build, the three
    keys of its type list the same name: nothing is replaced. *)
Theorem latest_device_names_without_zip (devices : devices_json)
    (manifest : builds_json) (target_device : string)
    (pre : list record) (b : record) (t f : string)
    (xda model maintainer : value) :
  dict_lookup String.eqb target_device manifest = Some (pre ++ [b]) ->
  Forall has_filename pre ->
  b !! "type" = Some (VStr t) ->
  py_in (VStr t) ALLOWED_BUILDTYPES = true ->
  b !! "filename" = Some (VStr f) ->
  occurs ".zip" f = false ->
  truthy (dict_get b "fastboot_images") = true ->
  truthy (dict_get b "boot_image") = true ->
  find_device devices target_device = Ok (xda, model, maintainer) ->
  exists files,
    latest_device devices manifest target_device
      = Ok (DevicePage files target_device model xda maintainer) /\
    dict_lookup String.eqb t files = Some (VStr f) /\
    dict_lookup String.eqb (t +:+ "-img") files = Some (VStr f) /\
    dict_lookup String.eqb (t +:+ "-boot") files = Some (VStr f).
Proof.
  intros Hman Hpre Ht Hin Hf Hzip Hfb Hboot Hdev.
  destruct (latest_device_last_build devices manifest target_device pre b
              t f xda model maintainer Hman Hpre Ht Hin Hf Hdev)
    as (files & E & Lt & Limg & Lboot).
  specialize (Limg Hfb). specialize (Lboot Hboot).
  rewrite (replace_absent _ _ f Hzip) in Limg.
  rewrite (replace_absent _ _ f Hzip) in Lboot.
  exists files. auto.
Qed.

(** * The further properties on the sample documents *)

Lemma get_devices_incomplete_witness :
  get_devices shadowed_devices = Raise KeyError /\
  forall base arrow manifest device romtype,
    ota base arrow shadowed_devices manifest device romtype = Raise KeyError.
Proof.
  apply (get_devices_incomplete shadowed_devices).
  apply Exists_cons. right. apply Exists_cons. left.
  intros [[k Hk] _]. vm_compute in Hk. discriminate Hk.
Defined.

Lemma get_devices_contains_witness :
  dict_contains py_eqb (VStr "ghost") sample_directory = true <->
  exists d, d ∈ sample_devices /\ d !! "codename" = Some (VStr "ghost").
Proof.
  apply (get_devices_contains sample_devices sample_directory "ghost").
  reflexivity.
Defined.

Lemma get_devices_last_wins_witness :
  exists devs,
    get_devices ([ghost_device; beryllium_device] ++ renamed_device :: [])
      = Ok devs /\
    dict_lookup py_eqb (VStr "beryllium") devs = Some (VStr "Pocophone F1").
Proof.
  apply (get_devices_last_wins [ghost_device; beryllium_device] []
           renamed_device "beryllium" (VStr "Pocophone F1"));
    try reflexivity; [|constructor].
  repeat (apply Forall_cons; split;
          [split; eexists; vm_compute; reflexivity|]).
  constructor.
Defined.

Ltac all_have_filename :=
  repeat (apply Forall_cons; split; [eexists; reflexivity|]); constructor.

Lemma latest_device_directory_first_witness :
  exists kv files,
    latest_device ([ghost_device] ++ beryllium_device :: [renamed_device])
      sample_builds "beryllium"
      = Ok (DevicePage (kv :: files) "beryllium"
              (dict_get beryllium_device "device")
              (dict_get beryllium_device "xda")
              (dict_get beryllium_device "maintainer")).
Proof.
  apply (latest_device_directory_first [ghost_device] [renamed_device]
           beryllium_device sample_builds "beryllium"
           [gapps_a; official_a; official_b; gapps_b]);
    try reflexivity.
  - all_have_filename.
  - apply Exists_cons. left. reflexivity.
  - apply Forall_cons. split; [|constructor].
    exists (VStr "ghost"). split; [reflexivity|discriminate].
Defined.

Lemma latest_device_directory_absent_witness :
  exists kv files,
    latest_device [ghost_device] sample_builds "beryllium"
      = Ok (DevicePage (kv :: files) "beryllium" (VStr "beryllium")
              VNone VNone).
Proof.
  apply (latest_device_directory_absent [ghost_device] sample_builds
           "beryllium" [gapps_a; official_a; official_b; gapps_b]);
    try reflexivity.
  - all_have_filename.
  - apply Exists_cons. left. reflexivity.
  - apply Forall_cons. split; [|constructor].
    exists (VStr "ghost"). split; [reflexivity|discriminate].
Defined.

Lemma latest_device_directory_key_error_witness :
  latest_device ([ghost_device] ++ nameless_device :: [beryllium_device])
    sample_builds "beryllium" = Raise KeyError.
Proof.
  apply (latest_device_directory_key_error [ghost_device]
           [beryllium_device] nameless_device sample_builds "beryllium"
           [gapps_a; official_a; official_b; gapps_b]);
    try reflexivity.
  - all_have_filename.
  - apply Forall_cons. split; [|constructor].
    exists (VStr "ghost"). split; [reflexivity|discriminate].
Defined.

Lemma latest_device_page_keys_witness :
  "beryllium" = "beryllium" /\
  [("gapps", VStr "AOSiP-10-Gapps-beryllium-20200520.zip");
   ("official", VStr "AOSiP-10-Official-beryllium-20200501.zip");
   ("official-img", VStr "AOSiP-10-Official-beryllium-20200415-img.zip");
   ("official-boot", VStr "AOSiP-10-Official-beryllium-20200415-boot.img")]
    <> [] /\
  NoDup ["gapps"; "official"; "official-img"; "official-boot"] /\
  Forall (fun k => k ∈ page_keys)
    ["gapps"; "official"; "official-img"; "official-boot"].
Proof.
  apply (latest_device_page_keys sample_devices sample_builds "beryllium"
           "beryllium"
           [("gapps", VStr "AOSiP-10-Gapps-beryllium-20200520.zip");
            ("official", VStr "AOSiP-10-Official-beryllium-20200501.zip");
            ("official-img",
             VStr "AOSiP-10-Official-beryllium-20200415-img.zip");
            ("official-boot",
             VStr "AOSiP-10-Official-beryllium-20200415-boot.img")]
           (VStr "Poco F1")
           (VStr "https://forum.xda-developers.com/poco-f1")
           (VStr "someone")).
  vm_compute. reflexivity.
Defined.

Lemma latest_device_missing_filename_witness :
  latest_device sample_devices
    [("beryllium", [gapps_a] ++ flagged_nameless :: [official_b])]
    "beryllium" = Raise AttributeError.
Proof.
  apply (latest_device_missing_filename sample_devices
           [("beryllium", [gapps_a] ++ flagged_nameless :: [official_b])]
           "beryllium" [gapps_a] [official_b] flagged_nameless);
    try reflexivity.
  - all_have_filename.
  - intros f. discriminate.
  - left. reflexivity.
Defined.

Lemma latest_device_none_filename_witness :
  exists files,
    latest_device sample_devices
      [("beryllium", [gapps_a] ++ plain_nameless :: [gapps_b])] "beryllium"
      = Ok (DevicePage files "beryllium" (VStr "Poco F1")
              (VStr "https://forum.xda-developers.com/poco-f1")
              (VStr "someone")) /\
    dict_lookup String.eqb "official" files = Some VNone.
Proof.
  apply (latest_device_none_filename sample_devices
           [("beryllium", [gapps_a] ++ plain_nameless :: [gapps_b])]
           "beryllium" [gapps_a] [gapps_b] plain_nameless "official");
    try reflexivity.
  - all_have_filename.
  - all_have_filename.
  - apply Forall_cons. split; [discriminate|constructor].
Defined.

Lemma ota_response_shape_witness :
  Jsonify [sample_ota_record] = Jsonify [] \/
  exists (r b : record) (builds : list record) (path : string),
    Jsonify [sample_ota_record] = Jsonify [r] /\
    dict_lookup String.eqb "beryllium" sample_builds = Some builds /\
    b ∈ builds /\
    b !! "type" = Some (VStr "official") /\
    r !! "romtype" = Some (VStr "official") /\
    r !! "id" = b !! "sha256" /\
    r !! "version" = b !! "version" /\
    r !! "filename" = b !! "filename" /\
    r !! "size" = b !! "size" /\
    r !! "url" = Some (VStr ("https://get.aosip.dev" +:+ path)) /\
    dom r = list_to_set
      ["id"; "url"; "romtype"; "datetime"; "version"; "filename"; "size"].
Proof.
  apply (ota_response_shape "https://get.aosip.dev" iso_date_timestamp
           sample_devices sample_builds "beryllium" "official").
  vm_compute. reflexivity.
Defined.

Lemma ota_missing_type_witness :
  ota "https://get.aosip.dev" iso_date_timestamp sample_devices
    [("beryllium", [gapps_a] ++ untyped_build :: [official_a])]
    "beryllium" "official" = Raise KeyError /\
  forall files, latest_device_step files untyped_build = Ok files.
Proof.
  apply (ota_missing_type "https://get.aosip.dev" iso_date_timestamp
           sample_devices
           [("beryllium", [gapps_a] ++ untyped_build :: [official_a])]
           "beryllium" "official" sample_directory [gapps_a] [official_a]
           untyped_build); try reflexivity.
  apply Forall_cons. split; [|constructor].
  exists (VStr "gapps"). split; [reflexivity|discriminate].
Defined.

Lemma ota_missing_field_witness :
  ota "https://get.aosip.dev" iso_date_timestamp sample_devices
    [("beryllium", [gapps_a] ++ unhashed_soon :: [official_a])]
    "beryllium" "official" = Raise KeyError /\
  ota "https://get.aosip.dev" iso_date_timestamp sample_devices
    [("beryllium", [gapps_a] ++ unversioned_soon :: [official_a])]
    "beryllium" "official" = Raise ParserError /\
  ota "https://get.aosip.dev" iso_date_timestamp sample_devices
    [("beryllium", [gapps_a] ++ unsized_build :: [official_a])]
    "beryllium" "official" = Raise KeyError.
Proof.
  assert (Forall (other_type "official") [gapps_a]) as Hpre.
  { apply Forall_cons. split; [|constructor].
    exists (VStr "gapps"). split; [reflexivity|discriminate]. }
  split; [|split].
  - apply (ota_missing_field "https://get.aosip.dev" iso_date_timestamp
             sample_devices
             [("beryllium", [gapps_a] ++ unhashed_soon :: [official_a])]
             "beryllium" "official" sample_directory [gapps_a] [official_a]
             unhashed_soon eq_refl eq_refl eq_refl Hpre eq_refl)
      with (k := "sha256"); [|reflexivity].
    apply elem_of_cons. left. reflexivity.
  - apply (ota_missing_field "https://get.aosip.dev" iso_date_timestamp
             sample_devices
             [("beryllium", [gapps_a] ++ unversioned_soon :: [official_a])]
             "beryllium" "official" sample_directory [gapps_a] [official_a]
             unversioned_soon eq_refl eq_refl eq_refl Hpre eq_refl)
      with (date := VStr "soon"); [|reflexivity|reflexivity].
    repeat (apply Forall_cons; split; [eexists; reflexivity|]). constructor.
  - apply (ota_missing_field "https://get.aosip.dev" iso_date_timestamp
             sample_devices
             [("beryllium", [gapps_a] ++ unsized_build :: [official_a])]
             "beryllium" "official" sample_directory [gapps_a] [official_a]
             unsized_build eq_refl eq_refl eq_refl Hpre eq_refl)
      with (date := VStr "2020-03-01") (ts := 1583020800) (k := "size");
      [|reflexivity|reflexivity| |reflexivity].
    + repeat (apply Forall_cons; split; [eexists; reflexivity|]). constructor.
    + apply elem_of_cons. right. apply elem_of_cons. left. reflexivity.
Defined.

Lemma ota_build_on_page_witness :
  exists files,
    latest_device sample_devices sample_builds "beryllium"
      = Ok (DevicePage files "beryllium" (VStr "Poco F1")
              (VStr "https://forum.xda-developers.com/poco-f1")
              (VStr "someone")) /\
    is_Some (dict_lookup String.eqb "official" files).
Proof.
  apply (ota_build_on_page "https://get.aosip.dev" iso_date_timestamp
           sample_devices sample_builds "beryllium" "official"
           sample_ota_record [gapps_a; official_a; official_b; gapps_b]);
    try reflexivity.
  all_have_filename.
Defined.

Lemma show_files_devices_witness :
  let devs' :=
    [(VStr "beryllium", VStr "Poco F1"); (VStr "ghost", VStr "Moto X");
     (VStr "legacy", VStr "legacy")] in
  (forall k v, dict_lookup py_eqb k sample_directory = Some v ->
               dict_lookup py_eqb k devs' = Some v) /\
  (forall zip c d, zip ∈ sample_names -> fields_of zip = Some (c, d) ->
     dict_lookup py_eqb (VStr c) devs'
       = Some (shown_name sample_directory c)) /\
  (forall k, is_Some (dict_lookup py_eqb k devs') ->
     is_Some (dict_lookup py_eqb k sample_directory) \/
     exists zip c d, zip ∈ sample_names /\ fields_of zip = Some (c, d) /\
                     k = VStr c).
Proof.
  apply (show_files_devices sample_devices sample_builds sample_directory
           [(VStr "beryllium", VStr "Poco F1"); (VStr "ghost", VStr "Moto X");
            (VStr "legacy", VStr "legacy")]
           sample_names
           [("beryllium", "Monday, 01 June - 2020");
            ("legacy", "Tuesday, 01 January - 2019")]);
    vm_compute; reflexivity.
Defined.

Lemma show_files_greatest_parses_witness :
  let names :=
    ["AOSiP-10-Official-beryllium-20200415.zip";
     "AOSiP-10-Official-beryllium-0000.zip"] in
  exists devs' build_dates,
    show_files sample_devices [("beryllium", [official_a; undated_build])]
      = Ok (LatestPage devs' build_dates) /\
    NoDup build_dates.*1 /\
    forall c shown,
      dict_lookup String.eqb c build_dates = Some shown <->
      exists d day, greatest_date names c d /\ strptime d = Ok day /\
                    shown = strftime day.
Proof.
  intros names.
  apply (show_files_greatest_parses sample_devices
           [("beryllium", [official_a; undated_build])] sample_directory
           names); try reflexivity.
  - repeat (apply Forall_cons; split; [eexists; vm_compute; reflexivity|]).
    constructor.
  - intros c d [(zip & Hz & Hf) Hmax].
    apply elem_of_cons in Hz as [->|Hz].
    + vm_compute in Hf. injection Hf as <- <-.
      exists (Date 2020 4 15). vm_compute. reflexivity.
    + apply list_elem_of_singleton in Hz as ->.
      vm_compute in Hf. injection Hf as <- <-.
      assert (Str.gtb "20200415" "0000" = false) as Hgt.
      { apply (Hmax "AOSiP-10-Official-beryllium-20200415.zip").
        - apply elem_of_cons. left. reflexivity.
        - vm_compute. reflexivity. }
      vm_compute in Hgt. discriminate Hgt.
Defined.

Lemma show_files_bad_date_witness :
  show_files sample_devices [("beryllium", [official_a; misdated_build])]
    = Raise ValueError.
Proof.
  apply (show_files_bad_date sample_devices
           [("beryllium", [official_a; misdated_build])] sample_directory
           ["AOSiP-10-Official-beryllium-20200415.zip";
            "AOSiP-10-Official-beryllium-2020xx01.zip"]
           "beryllium" "2020xx01"); try reflexivity.
  - repeat (apply Forall_cons; split; [eexists; vm_compute; reflexivity|]).
    constructor.
  - split.
    + exists "AOSiP-10-Official-beryllium-2020xx01.zip". split.
      * apply elem_of_cons. right. apply elem_of_cons. left. reflexivity.
      * vm_compute. reflexivity.
    + intros zip' d' Hz Hf. apply elem_of_cons in Hz as [->|Hz].
      * vm_compute in Hf. injection Hf as <-. vm_compute. reflexivity.
      * apply list_elem_of_singleton in Hz as ->.
        vm_compute in Hf. injection Hf as <-. vm_compute. reflexivity.
  - intros day H. vm_compute in H. discriminate H.
Defined.

Example show_files_digits_of_any_script :
  show_files sample_devices [("beryllium", [indic_build])]
    = Ok (LatestPage sample_directory
            [("beryllium", "Friday, 01 May - 2020")]).
Proof. vm_compute. reflexivity. Qed.

Lemma show_files_filename_not_string_witness :
  show_files sample_devices [("beryllium", [official_a; numbered_build])]
    = Raise TypeError.
Proof.
  apply (show_files_filename_not_string sample_devices
           [("beryllium", [official_a; numbered_build])] sample_directory
           ["AOSiP-10-Official-beryllium-20200415.zip"] (VNum 7) []);
    try reflexivity.
  - apply Forall_cons. split; [eexists; vm_compute; reflexivity|constructor].
  - intros s. discriminate.
Defined.

Lemma show_files_missing_filename_witness :
  get_zips [("beryllium", [official_a; plain_nameless])] = Raise KeyError /\
  show_files sample_devices [("beryllium", [official_a; plain_nameless])]
    = Raise KeyError.
Proof.
  apply (show_files_missing_filename sample_devices
           [("beryllium", [official_a; plain_nameless])]).
  apply Exists_cons. right. apply Exists_cons. left. reflexivity.
Defined.

Lemma changelog_device_requests_witness :
  let global_url := changelog_base_url +:+ "/changelog" in
  let device_url :=
    changelog_base_url +:+ "/" +:+ "beryllium" +:+ "/changelog" in
  snd (changelog_device sample_upstream "beryllium" [])
    = [] ++ [global_url; device_url] /\
  (status_code (sample_upstream device_url) = 200 ->
   exists body,
     fst (changelog_device sample_upstream "beryllium" []) = Text body /\
     Str.count "010" body = O).
Proof.
  apply (changelog_device_requests sample_upstream "beryllium" []);
    [discriminate|reflexivity].
Defined.

Lemma latest_device_image_names_witness :
  exists files,
    latest_device sample_devices [("beryllium", [gapps_a] ++ [official_a])]
      "beryllium"
      = Ok (DevicePage files "beryllium" (VStr "Poco F1")
              (VStr "https://forum.xda-developers.com/poco-f1")
              (VStr "someone")) /\
    dict_lookup String.eqb "official" files
      = Some (VStr ("AOSiP-10-Official-beryllium-20200415" +:+ ".zip")) /\
    dict_lookup String.eqb ("official" +:+ "-img") files
      = Some (VStr ("AOSiP-10-Official-beryllium-20200415" +:+ "-img.zip")) /\
    dict_lookup String.eqb ("official" +:+ "-boot") files
      = Some (VStr ("AOSiP-10-Official-beryllium-20200415" +:+ "-boot.img")).
Proof.
  apply (latest_device_image_names sample_devices
           [("beryllium", [gapps_a] ++ [official_a])] "beryllium"
           [gapps_a] official_a "official"
           "AOSiP-10-Official-beryllium-20200415"); try reflexivity.
  all_have_filename.
Defined.

Lemma latest_device_names_without_zip_witness :
  exists files,
    latest_device sample_devices [("beryllium", [gapps_a] ++ [upper_build])]
      "beryllium"
      = Ok (DevicePage files "beryllium" (VStr "Poco F1")
              (VStr "https://forum.xda-developers.com/poco-f1")
              (VStr "someone")) /\
    dict_lookup String.eqb "official" files
      = Some (VStr "AOSiP-10-Official-beryllium-20200415.ZIP") /\
    dict_lookup String.eqb ("official" +:+ "-img") files
      = Some (VStr "AOSiP-10-Official-beryllium-20200415.ZIP") /\
    dict_lookup String.eqb ("official" +:+ "-boot") files
      = Some (VStr "AOSiP-10-Official-beryllium-20200415.ZIP").
Proof.
  apply (latest_device_names_without_zip sample_devices
           [("beryllium", [gapps_a] ++ [upper_build])] "beryllium"
           [gapps_a] upper_build "official"
           "AOSiP-10-Official-beryllium-20200415.ZIP"); try reflexivity.
  all_have_filename.
Defined.
